(** * Video compression bot: job lifecycle

    A shallow embedding of [telegram_compression_bot.py].  The bot is a set
    of asyncio coroutines that share the module-level dictionary
    [active_tasks], the per-user dictionary [context.user_data] and the
    scratch directory.  A coroutine runs atomically between two [await]s;
    at an [await] the awaited call completes (returning or raising) and any
    other coroutine may have run in the meantime.

    The embedding keeps that structure: coroutines are terms of a small
    monad [coro] with state, exceptions and suspension points, and their
    executions are driven by the replies of the awaited calls together with
    what the rest of the system did to the shared store meanwhile. *)

From Stdlib Require Import ZArith QArith String Ascii List Lia Lqa.
From stdpp Require Import base gmap strings list fin_maps pretty.

Local Open Scope Z_scope.
Local Open Scope string_scope.

(** ** Exceptions

    Every exception here derives from Python's [Exception], so each is
    caught by the source's [except Exception] clauses.  [FfmpegError] is
    [ffmpeg.Error], the only class [compress_video] catches by name. *)
Inductive exn : Type :=
| KeyError (key : string)
| UnboundLocalError (name : string)
| FileNotFoundError (path : string)
| ZeroDivisionError
| FfmpegError (stderr : string)
| Exception (msg : string)
| TelegramError (msg : string).

(** ** Data *)

(** [telegram.Video] / [telegram.Document] as [handle_video] reads it.
    [file_name] and [mime_type] are [None] when the object lacks the
    attribute ([hasattr] is false). *)
Record Video : Type := {
  file_id : string;
  file_name : option string;
  file_size : Z;
  mime_type : option string
}.

(** The dictionary stored under [context.user_data["pending_video"]] and
    under [active_tasks[user_id]["video_info"]].  It is never mutated after
    its creation, so sharing one object between the two places is not
    observable and a value copy is exact. *)
Record VideoInfo : Type := {
  vi_file_id : string;
  vi_file_name : string;
  vi_file_size : Z;
  vi_mime_type : string
}.

(** An entry of [active_tasks].  [start_time] is [time.time()]. *)
Record Task : Type := {
  video_info : VideoInfo;
  quality : string;
  status_message_id : Z;
  start_time : Z;
  canceled : bool
}.

(** [context.user_data] of one user: the three keys the bot uses, absent
    ([None]) until written. *)
Record UserData : Type := {
  default_quality : option string;
  is_premium : option bool;
  pending_video : option VideoInfo
}.

Definition no_user_data : UserData :=
  {| default_quality := None; is_premium := None; pending_video := None |}.

Record Preset : Type := {
  crf : Z;
  preset : string;
  description : string
}.

(** [telegram.Update], restricted to what the handlers read. *)
Record Update : Type := {
  effective_user : Z;
  effective_chat : Z;
  message_video : option Video;
  message_document : option Video;
  query_data : string
}.

(** ** Configuration *)

Definition MAX_FILE_SIZE : Z := 50 * 1024 * 1024.
Definition PREMIUM_MAX_FILE_SIZE : Z := 2 * 1024 * 1024 * 1024.
Definition TEMP_DOWNLOAD_DIR : string := "/tmp/tg_video_compressor".

Definition COMPRESSION_PRESETS : gmap string Preset :=
  list_to_map
    [ ("low", {| crf := 28; preset := "veryfast";
                 description := "Small file size, lower quality" |});
      ("medium", {| crf := 23; preset := "medium";
                    description := "Balanced file size and quality" |});
      ("high", {| crf := 18; preset := "slow";
                  description := "Larger file size, higher quality" |}) ].

(** ** Strings *)

Definition upper_ascii (c : ascii) : ascii :=
  let n := nat_of_ascii c in
  if (97 <=? n)%nat && (n <=? 122)%nat then ascii_of_nat (n - 32) else c.

Definition lower_ascii (c : ascii) : ascii :=
  let n := nat_of_ascii c in
  if (65 <=? n)%nat && (n <=? 90)%nat then ascii_of_nat (n + 32) else c.

Fixpoint lower (s : string) : string :=
  match s with
  | EmptyString => EmptyString
  | String c s' => String (lower_ascii c) (lower s')
  end.

(** [str.capitalize()] on ASCII text: first character upper-cased, the
    rest lower-cased. *)
Definition capitalize (s : string) : string :=
  match s with
  | EmptyString => EmptyString
  | String c s' => String (upper_ascii c) (lower s')
  end.

Fixpoint starts_with (p s : string) : bool :=
  match p, s with
  | EmptyString, _ => true
  | String a p', String b s' => if Ascii.eqb a b then starts_with p' s' else false
  | String _ _, EmptyString => false
  end.

(** [s.replace(old, "")] for a non-empty [old]: every non-overlapping
    occurrence of [old], found left to right, is dropped.  [skip] counts
    the characters of a matched occurrence still to drop. *)
Fixpoint remove_all_go (old s : string) (skip : nat) : string :=
  match s with
  | EmptyString => EmptyString
  | String c s' =>
      match skip with
      | S n => remove_all_go old s' n
      | O =>
          if starts_with old s
          then remove_all_go old s' (String.length old - 1)
          else String c (remove_all_go old s' O)
      end
  end.

Definition remove_all (old s : string) : string := remove_all_go old s O.

(** [os.path.join(TEMP_DOWNLOAD_DIR, name)] for a relative [name]. *)
Definition path_join (dir name : string) : string := dir +:+ "/" +:+ name.

(** ** Message texts

    Each constructor is one text template of the source, with the values
    its f-string interpolates; the rendering of numbers is not modelled. *)
Inductive text : Type :=
| WELCOME_MESSAGE
| HELP_MESSAGE
| SETTINGS_MESSAGE (default_quality : string)
| DefaultSet (quality : string)
| Canceling
| NothingToCancel
| AlreadyActive
| NoVideoDetected
| TooLarge (size_limit : Z) (premium : bool)
| VideoReceived (size : Z) (default_quality : string)
| NoPendingVideo
| Starting (quality : string) (size : Z)
| Downloading (size : Z) (quality : string)
| CompressionCanceled
| Compressing (quality : string) (description : string)
| Uploading (size output_size : Z) (reduction : Q)
| Caption (quality : string) (size output_size : Z) (reduction : Q)
| Completed (quality : string) (size output_size : Z) (reduction : Q)
| ErrorOccurred (e : exn).

(** ** Awaited calls

    The calls the coroutines [await]: Telegram API requests and the encode
    job handed to the executor. *)
Inductive call : Type :=
| reply_text (chat : Z) (t : text)
| query_answer
| query_edit_message_text (t : text)
| edit_message_text (t : text) (chat_id message_id : Z)
| get_file (fid : string)
| download_to_drive (fid path : string)
| ffmpeg_run (input_path output_path : string) (crf : Z) (preset : string)
| send_video (chat_id : Z) (path : string) (caption : text) (filename : string).

(** What an awaited call hands back: a value (a message id, a byte count;
    ignored where the source ignores it) or an exception. *)
Inductive reply : Type :=
| Returned (v : Z)
| Raised (e : exn).

Inductive log_entry : Type :=
| ErrorDuringCompression (e : exn)
| ErrorCleaningUp (e : exn)
| FFmpegErrorLogged (stderr : string).

(** ** Shared store

    [active_tasks] and [user_data] are the two dictionaries, [fs] the
    scratch directory (path to size in bytes), [now] the clock read by
    [int(time.time())], [log] what went to [logger.error], and
    [created_tasks] the pipelines handed to [asyncio.create_task]. *)
Record store : Type := {
  active_tasks : gmap Z Task;
  user_data : gmap Z UserData;
  fs : gmap string Z;
  now : Z;
  log : list log_entry;
  created_tasks : list (Update * Z)
}.

Definition empty_store : store :=
  {| active_tasks := ∅; user_data := ∅; fs := ∅; now := 0; log := [];
     created_tasks := [] |}.

Definition set_active_tasks (f : gmap Z Task -> gmap Z Task) (s : store) : store :=
  {| active_tasks := f (active_tasks s); user_data := user_data s; fs := fs s;
     now := now s; log := log s; created_tasks := created_tasks s |}.

Definition set_user_data (f : gmap Z UserData -> gmap Z UserData) (s : store) : store :=
  {| active_tasks := active_tasks s; user_data := f (user_data s); fs := fs s;
     now := now s; log := log s; created_tasks := created_tasks s |}.

Definition set_fs (f : gmap string Z -> gmap string Z) (s : store) : store :=
  {| active_tasks := active_tasks s; user_data := user_data s; fs := f (fs s);
     now := now s; log := log s; created_tasks := created_tasks s |}.

Definition add_log (e : log_entry) (s : store) : store :=
  {| active_tasks := active_tasks s; user_data := user_data s; fs := fs s;
     now := now s; log := log s ++ [e]; created_tasks := created_tasks s |}.

Definition add_created_task (t : Update * Z) (s : store) : store :=
  {| active_tasks := active_tasks s; user_data := user_data s; fs := fs s;
     now := now s; log := log s; created_tasks := created_tasks s ++ [t] |}.

(** [context.user_data] of [uid]; a user who has stored nothing yet has
    the empty dictionary. *)
Definition user_data_of (s : store) (uid : Z) : UserData :=
  default no_user_data (user_data s !! uid).

(** ** Local variables

    The locals of [process_compression] that its [except] and [finally]
    blocks read: they are unbound ([None]) until the [try] body assigns
    them.  The other locals are only used inside the [try] body and are
    bound by ordinary [let]s. *)
Record frame : Type := {
  l_status_message_id : option Z;
  l_input_path : option string;
  l_output_path : option string
}.

Definition empty_frame : frame :=
  {| l_status_message_id := None; l_input_path := None; l_output_path := None |}.

(** ** Coroutines *)

Inductive coro (A : Type) : Type :=
| Ret (a : A)
| Throw (e : exn)
| Get (k : store -> frame -> coro A)
| PutS (s : store) (k : coro A)
| PutF (f : frame) (k : coro A)
| Await (c : call) (k : reply -> coro A).

Arguments Ret {A} a.
Arguments Throw {A} e.
Arguments Get {A} k.
Arguments PutS {A} s k.
Arguments PutF {A} f k.
Arguments Await {A} c k.

Fixpoint bind {A B : Type} (m : coro A) (f : A -> coro B) : coro B :=
  match m with
  | Ret a => f a
  | Throw e => Throw e
  | Get k => Get (fun s fr => bind (k s fr) f)
  | PutS s k => PutS s (bind k f)
  | PutF fr k => PutF fr (bind k f)
  | Await c k => Await c (fun r => bind (k r) f)
  end.

(** [try: m  except Exception as e: h e] *)
Fixpoint try_except {A : Type} (m : coro A) (h : exn -> coro A) : coro A :=
  match m with
  | Ret a => Ret a
  | Throw e => h e
  | Get k => Get (fun s fr => try_except (k s fr) h)
  | PutS s k => PutS s (try_except k h)
  | PutF fr k => PutF fr (try_except k h)
  | Await c k => Await c (fun r => try_except (k r) h)
  end.

(** [try: m  finally: fin] -- [fin] runs on every exit of [m]; the result
    or exception of [m] is kept unless [fin] itself raises. *)
Fixpoint try_finally {A : Type} (m : coro A) (fin : coro unit) : coro A :=
  match m with
  | Ret a => bind fin (fun _ => Ret a)
  | Throw e => bind fin (fun _ => Throw e)
  | Get k => Get (fun s fr => try_finally (k s fr) fin)
  | PutS s k => PutS s (try_finally k fin)
  | PutF fr k => PutF fr (try_finally k fin)
  | Await c k => Await c (fun r => try_finally (k r) fin)
  end.

Declare Scope coro_scope.
Delimit Scope coro_scope with coro.
Notation "x <- m ;; k" := (bind m (fun x => k))
  (at level 100, m at next level, right associativity) : coro_scope.
Notation "m ;;; k" := (bind m (fun _ => k))
  (at level 100, right associativity) : coro_scope.
Local Open Scope coro_scope.

Definition get_store : coro store := Get (fun s _ => Ret s).
Definition get_frame : coro frame := Get (fun _ fr => Ret fr).
Definition modify (f : store -> store) : coro unit :=
  Get (fun s _ => PutS (f s) (Ret tt)).
Definition modify_frame (f : frame -> frame) : coro unit :=
  Get (fun _ fr => PutF (f fr) (Ret tt)).

(** [await c]: suspend on [c]; resume with its value, or with the
    exception it raised thrown at the [await]. *)
Definition await (c : call) : coro Z :=
  Await c (fun r => match r with Returned v => Ret v | Raised e => Throw e end).

(** [d[key]] on a dictionary: [KeyError] when the key is absent. *)
Definition subscript {V : Type} (key : string) (o : option V) : coro V :=
  match o with Some v => Ret v | None => Throw (KeyError key) end.

(** Reading a local that may be unbound. *)
Definition local {V : Type} (name : string) (o : option V) : coro V :=
  match o with Some v => Ret v | None => Throw (UnboundLocalError name) end.

(** [os.path.exists], [os.remove], [os.path.getsize], [open(path, "rb")]. *)
Definition os_path_exists (s : store) (path : string) : bool :=
  bool_decide (is_Some (fs s !! path)).

Definition os_remove (path : string) : coro unit :=
  s <- get_store ;;
  if os_path_exists s path
  then modify (set_fs (delete path))
  else Throw (FileNotFoundError path).

Definition os_path_getsize (path : string) : coro Z :=
  s <- get_store ;;
  match fs s !! path with
  | Some n => Ret n
  | None => Throw (FileNotFoundError path)
  end.

Definition open_rb (path : string) : coro unit :=
  s <- get_store ;;
  if os_path_exists s path then Ret tt else Throw (FileNotFoundError path).

Definition logger_error (e : log_entry) : coro unit := modify (add_log e).

(** [for x in l: body x] *)
Fixpoint for_each {X : Type} (l : list X) (body : X -> coro unit) : coro unit :=
  match l with
  | [] => Ret tt
  | x :: l' => body x ;;; for_each l' body
  end.

(** [del active_tasks[user_id]] *)
Definition del_active_task (user_id : Z) : coro unit :=
  s <- get_store ;;
  _ <- subscript (pretty user_id) (active_tasks s !! user_id) ;;
  modify (set_active_tasks (delete user_id)).

(** [context.user_data[key] = value] for the user of the update. *)
Definition write_user_data (uid : Z) (f : UserData -> UserData) : coro unit :=
  modify (fun s => set_user_data (<[uid := f (user_data_of s uid)]>) s).

(** [d["default_quality"] = q], [d["pending_video"] = v] and
    [task["canceled"] = True]: one key is written, the others are kept. *)
Definition set_default_quality (q : string) (d : UserData) : UserData :=
  {| default_quality := Some q;
     is_premium := is_premium d;
     pending_video := pending_video d |}.

Definition set_pending_video (v : VideoInfo) (d : UserData) : UserData :=
  {| default_quality := default_quality d;
     is_premium := is_premium d;
     pending_video := Some v |}.

Definition set_canceled (t : Task) : Task :=
  {| video_info := video_info t;
     quality := quality t;
     status_message_id := status_message_id t;
     start_time := start_time t;
     canceled := true |}.

(** ** Command handlers *)

Definition start (update : Update) : coro unit :=
  _ <- await (reply_text (effective_chat update) WELCOME_MESSAGE) ;;
  Ret tt.

Definition help_command (update : Update) : coro unit :=
  _ <- await (reply_text (effective_chat update) HELP_MESSAGE) ;;
  Ret tt.

Definition settings_command (update : Update) : coro unit :=
  let user_id := effective_user update in
  s <- get_store ;;
  let default_quality :=
    default "medium" (default_quality (user_data_of s user_id)) in
  _ <- await (reply_text (effective_chat update)
                (SETTINGS_MESSAGE (capitalize default_quality))) ;;
  Ret tt.

Definition handle_settings_callback (update : Update) : coro unit :=
  _ <- await query_answer ;;
  let quality := remove_all "set_default_" (query_data update) in
  write_user_data (effective_user update) (set_default_quality quality) ;;;
  _ <- await (query_edit_message_text (DefaultSet (capitalize quality))) ;;
  Ret tt.

Definition cancel_command (update : Update) : coro unit :=
  let user_id := effective_user update in
  s <- get_store ;;
  match active_tasks s !! user_id with
  | Some t =>
      modify (set_active_tasks (<[user_id := set_canceled t]>)) ;;;
      _ <- await (reply_text (effective_chat update) Canceling) ;;
      Ret tt
  | None =>
      _ <- await (reply_text (effective_chat update) NothingToCancel) ;;
      Ret tt
  end.

(** [video.file_name if hasattr(video, "file_name") else
    f"video_{int(time.time())}.mp4"], and the same for the mime type. *)
Definition pending_video_of (video : Video) (time : Z) : VideoInfo :=
  {| vi_file_id := file_id video;
     vi_file_name :=
       default ("video_" +:+ pretty time +:+ ".mp4") (file_name video);
     vi_file_size := file_size video;
     vi_mime_type := default "video/mp4" (mime_type video) |}.

(** [a or b] on two optional objects. *)
Definition or_else {X : Type} (a b : option X) : option X :=
  match a with Some x => Some x | None => b end.

Definition handle_video (update : Update) : coro unit :=
  let user_id := effective_user update in
  s <- get_store ;;
  if bool_decide (is_Some (active_tasks s !! user_id)) then
    _ <- await (reply_text (effective_chat update) AlreadyActive) ;;
    Ret tt
  else
    match or_else (message_video update) (message_document update) with
    | None =>
        _ <- await (reply_text (effective_chat update) NoVideoDetected) ;;
        Ret tt
    | Some video =>
        let file_size := file_size video in
        let is_premium := default false (is_premium (user_data_of s user_id)) in
        let size_limit :=
          if is_premium then PREMIUM_MAX_FILE_SIZE else MAX_FILE_SIZE in
        if (size_limit <? file_size)%Z then
          _ <- await (reply_text (effective_chat update)
                        (TooLarge size_limit is_premium)) ;;
          Ret tt
        else
          let default_quality :=
            default "medium" (default_quality (user_data_of s user_id)) in
          _ <- await (reply_text (effective_chat update)
                        (VideoReceived file_size (capitalize default_quality))) ;;
          s' <- get_store ;;
          write_user_data user_id
            (set_pending_video (pending_video_of video (now s')))
    end.

Definition handle_compression_callback (update : Update) : coro unit :=
  _ <- await query_answer ;;
  let user_id := effective_user update in
  let quality := remove_all "compress_" (query_data update) in
  s <- get_store ;;
  match pending_video (user_data_of s user_id) with
  | None =>
      _ <- await (query_edit_message_text NoPendingVideo) ;;
      Ret tt
  | Some video_info =>
      status_message <-
        await (query_edit_message_text
                 (Starting (capitalize quality) (vi_file_size video_info))) ;;
      s' <- get_store ;;
      modify (set_active_tasks
                (<[user_id := {| video_info := video_info;
                                 quality := quality;
                                 status_message_id := status_message;
                                 start_time := now s';
                                 canceled := false |}]>)) ;;;
      modify (add_created_task (update, user_id))
  end.

(** ** The compression pipeline *)

(** [100 - (output_size / file_size * 100)].  Python's true division
    raises [ZeroDivisionError] on a zero divisor; the quotient is kept as
    an exact rational (the rounding of the float result is not modelled). *)
Definition size_reduction (output_size file_size : Z) : coro Q :=
  if (file_size =? 0)%Z then Throw ZeroDivisionError
  else Ret (100 - (inject_Z output_size / inject_Z file_size) * 100)%Q.

Definition compress_video (input_path output_path : string) (p : Preset) : coro unit :=
  try_except
    (_ <- await (ffmpeg_run input_path output_path (crf p) (preset p)) ;;
     Ret tt)
    (fun e =>
       match e with
       | FfmpegError stderr =>
           logger_error (FFmpegErrorLogged stderr) ;;;
           Throw (Exception ("Video compression failed: " +:+ stderr))
       | _ => Throw e
       end).

Definition remove_if_exists (file_path : string) : coro unit :=
  s <- get_store ;;
  if os_path_exists s file_path then os_remove file_path else Ret tt.

(** The [try] body of [process_compression]. *)
Definition process_compression_body (update : Update) (user_id : Z) : coro unit :=
  let chat_id := effective_chat update in
  s <- get_store ;;
  task_info <- subscript (pretty user_id) (active_tasks s !! user_id) ;;
  let video_info := video_info task_info in
  let quality := quality task_info in
  let status_message_id := status_message_id task_info in
  modify_frame (fun fr => {| l_status_message_id := Some status_message_id;
                             l_input_path := l_input_path fr;
                             l_output_path := l_output_path fr |}) ;;;
  _ <- await (edit_message_text
                (Downloading (vi_file_size video_info) (capitalize quality))
                chat_id status_message_id) ;;
  _ <- await (get_file (vi_file_id video_info)) ;;
  s <- get_store ;;
  let input_path :=
    path_join TEMP_DOWNLOAD_DIR
      ("input_" +:+ pretty user_id +:+ "_" +:+ pretty (now s) +:+ "_"
       +:+ vi_file_name video_info) in
  let output_path :=
    path_join TEMP_DOWNLOAD_DIR
      ("output_" +:+ pretty user_id +:+ "_" +:+ pretty (now s) +:+ "_"
       +:+ vi_file_name video_info) in
  modify_frame (fun fr => {| l_status_message_id := l_status_message_id fr;
                             l_input_path := Some input_path;
                             l_output_path := Some output_path |}) ;;;
  _ <- await (download_to_drive (vi_file_id video_info) input_path) ;;
  s <- get_store ;;
  t <- subscript (pretty user_id) (active_tasks s !! user_id) ;;
  if canceled t then
    os_remove input_path ;;;
    _ <- await (edit_message_text CompressionCanceled chat_id status_message_id) ;;
    del_active_task user_id
  else
    p <- subscript quality (COMPRESSION_PRESETS !! quality) ;;
    _ <- await (edit_message_text
                  (Compressing (capitalize quality) (description p))
                  chat_id status_message_id) ;;
    preset <- subscript quality (COMPRESSION_PRESETS !! quality) ;;
    compress_video input_path output_path preset ;;;
    s <- get_store ;;
    t <- subscript (pretty user_id) (active_tasks s !! user_id) ;;
    if canceled t then
      for_each [input_path; output_path] remove_if_exists ;;;
      _ <- await (edit_message_text CompressionCanceled chat_id status_message_id) ;;
      del_active_task user_id
    else
      output_size <- os_path_getsize output_path ;;
      reduction <- size_reduction output_size (vi_file_size video_info) ;;
      _ <- await (edit_message_text
                    (Uploading (vi_file_size video_info) output_size reduction)
                    chat_id status_message_id) ;;
      open_rb output_path ;;;
      _ <- await (send_video chat_id output_path
                    (Caption (capitalize quality) (vi_file_size video_info)
                       output_size reduction)
                    ("compressed_" +:+ vi_file_name video_info)) ;;
      _ <- await (edit_message_text
                    (Completed (capitalize quality) (vi_file_size video_info)
                       output_size reduction)
                    chat_id status_message_id) ;;
      Ret tt.

(** The [except Exception as e] block. *)
Definition process_compression_except (update : Update) (e : exn) : coro unit :=
  logger_error (ErrorDuringCompression e) ;;;
  try_except
    (fr <- get_frame ;;
     status_message_id <- local "status_message_id" (l_status_message_id fr) ;;
     _ <- await (edit_message_text (ErrorOccurred e) (effective_chat update)
                   status_message_id) ;;
     Ret tt)
    (fun _ => Ret tt).

(** The [finally] block. *)
Definition process_compression_finally (user_id : Z) : coro unit :=
  try_except
    (fr <- get_frame ;;
     input_path <- local "input_path" (l_input_path fr) ;;
     output_path <- local "output_path" (l_output_path fr) ;;
     for_each [input_path; output_path] remove_if_exists)
    (fun e => logger_error (ErrorCleaningUp e)) ;;;
  s <- get_store ;;
  if bool_decide (is_Some (active_tasks s !! user_id))
  then modify (set_active_tasks (delete user_id))
  else Ret tt.

Definition process_compression (update : Update) (user_id : Z) : coro unit :=
  try_finally
    (try_except (process_compression_body update user_id)
                (process_compression_except update))
    (process_compression_finally user_id).

Local Open Scope list_scope.

(** ** Executions

    A coroutine runs from one suspension to the next without interruption.
    [trace] is the list of calls it has awaited so far. *)
Inductive config (A : Type) : Type :=
| Running (s : store) (fr : frame) (trace : list call)
          (c : call) (k : reply -> coro A)
| Finished (s : store) (fr : frame) (trace : list call) (r : exn + A).

Arguments Running {A} s fr trace c k.
Arguments Finished {A} s fr trace r.

Fixpoint run_sync {A : Type} (m : coro A) (s : store) (fr : frame)
    (trace : list call) : config A :=
  match m with
  | Ret a => Finished s fr trace (inr a)
  | Throw e => Finished s fr trace (inl e)
  | Get k => run_sync (k s fr) s fr trace
  | PutS s' k => run_sync k s' fr trace
  | PutF fr' k => run_sync k s fr' trace
  | Await c k => Running s fr (trace ++ [c]) c k
  end.

(** What a completed call leaves in the scratch directory: a download
    that returns has written its target, an encode that returns has
    written its output; [v] is the size written. *)
Definition call_effect (c : call) (r : reply) (s : store) : store :=
  match c, r with
  | download_to_drive _ path, Returned v => set_fs (<[path := v]>) s
  | ffmpeg_run _ output_path _ _, Returned v => set_fs (<[output_path := v]>) s
  | _, _ => s
  end.

(** Resuming a suspended coroutine: the awaited call has completed with
    [r], and [others] is what every other coroutine and the outside world
    did to the store while this one was suspended. *)
Definition resume {A : Type} (cfg : config A) (r : reply)
    (others : store -> store) : config A :=
  match cfg with
  | Running s fr trace c k => run_sync (k r) (others (call_effect c r s)) fr trace
  | Finished s fr trace res => Finished s fr trace res
  end.

Definition environment : Type := list (reply * (store -> store)).

Fixpoint exec {A : Type} (cfg : config A) (env : environment) : config A :=
  match env with
  | [] => cfg
  | (r, others) :: env' => exec (resume cfg r others) env'
  end.

(** A fresh invocation of a coroutine on store [s]. *)
Definition invoke {A : Type} (m : coro A) (s : store) : config A :=
  run_sync m s empty_frame [].

Definition store_of {A : Type} (cfg : config A) : store :=
  match cfg with Running s _ _ _ _ => s | Finished s _ _ _ => s end.

Definition frame_of {A : Type} (cfg : config A) : frame :=
  match cfg with Running _ fr _ _ _ => fr | Finished _ fr _ _ => fr end.

Definition trace_of {A : Type} (cfg : config A) : list call :=
  match cfg with Running _ _ t _ _ => t | Finished _ _ t _ => t end.

Definition finished {A : Type} (cfg : config A) : bool :=
  match cfg with Running _ _ _ _ _ => false | Finished _ _ _ _ => true end.

(** A handler that runs with nothing else interleaved: only the replies of
    its own calls matter. *)
Definition alone (replies : list reply) : environment :=
  map (fun r => (r, fun s : store => s)) replies.

(** ** A program logic for coroutines

    [wp R m P Q s fr trace]: started on [s], [fr], [trace], the coroutine
    [m] satisfies [P] at each of its suspensions and [Q] when it finishes,
    for every reply to its calls and every change [R] allows the store to
    undergo while it is suspended. *)
Fixpoint wp {A : Type} (R : store -> store -> Prop) (m : coro A)
    (P : store -> frame -> list call -> call -> (reply -> coro A) -> Prop)
    (Q : store -> frame -> list call -> exn + A -> Prop)
    (s : store) (fr : frame) (trace : list call) : Prop :=
  match m with
  | Ret a => Q s fr trace (inr a)
  | Throw e => Q s fr trace (inl e)
  | Get k => wp R (k s fr) P Q s fr trace
  | PutS s' k => wp R k P Q s' fr trace
  | PutF fr' k => wp R k P Q s fr' trace
  | Await c k =>
      P s fr (trace ++ [c]) c k /\
      forall r s', R (call_effect c r s) s' -> wp R (k r) P Q s' fr (trace ++ [c])
  end.

(** The environments [R] allows. *)
Definition respects (R : store -> store -> Prop) (env : environment) : Prop :=
  Forall (fun ro => forall s, R s (ro.2 s)) env.

Definition anything : store -> store -> Prop := fun _ _ => True.

(** The number of suspensions of [m] is at most [n], whatever happens. *)
Fixpoint awaits_le {A : Type} (n : nat) (m : coro A) (s : store) (fr : frame) : Prop :=
  match m with
  | Ret _ | Throw _ => True
  | Get k => awaits_le n (k s fr) s fr
  | PutS s' k => awaits_le n k s' fr
  | PutF fr' k => awaits_le n k s fr'
  | Await c k =>
      match n with
      | O => False
      | S n' => forall r s', awaits_le n' (k r) s' fr
      end
  end.

(** ** The [finally] block as a store transformer

    The [finally] block of [process_compression] awaits nothing, so it is
    one atomic step; [cleanup] is the store it leaves
    ([cleanup_run_sync] below proves that it is). *)
Definition remove_existing (path : string) (s : store) : store :=
  if os_path_exists s path then set_fs (delete path) s else s.

Definition cleanup_files (fr : frame) (s : store) : store :=
  match l_input_path fr, l_output_path fr with
  | Some input_path, Some output_path =>
      remove_existing output_path (remove_existing input_path s)
  | None, _ => add_log (ErrorCleaningUp (UnboundLocalError "input_path")) s
  | Some _, None => add_log (ErrorCleaningUp (UnboundLocalError "output_path")) s
  end.

Definition cleanup (user_id : Z) (fr : frame) (s : store) : store :=
  let s1 := cleanup_files fr s in
  if bool_decide (is_Some (active_tasks s1 !! user_id))
  then set_active_tasks (delete user_id) s1
  else s1.

(** ** Outcomes of a pipeline run *)

(** Everything the pipeline wrote is gone and the user's entry is removed:
    the registry has no entry for [user_id], the paths bound to
    [input_path] and [output_path] do not exist, and neither does any path
    a download or an encode of this run was pointed at. *)
Definition cleaned_up (user_id : Z) (s : store) (fr : frame)
    (trace : list call) (r : exn + unit) : Prop :=
  r = inr tt /\
  active_tasks s !! user_id = None /\
  (forall p, l_input_path fr = Some p -> fs s !! p = None) /\
  (forall p, l_output_path fr = Some p -> fs s !! p = None) /\
  (forall fid p, In (download_to_drive fid p) trace -> fs s !! p = None) /\
  (forall i o c q, In (ffmpeg_run i o c q) trace ->
     fs s !! i = None /\ fs s !! o = None).

(** ** Observations on executions *)

(** The call a suspended coroutine is waiting for. *)
Definition awaiting {A : Type} (cfg : config A) : option call :=
  match cfg with Running _ _ _ c _ => Some c | Finished _ _ _ _ => None end.

Definition is_send_video (c : call) : bool :=
  match c with send_video _ _ _ _ => true | _ => false end.

Definition is_ffmpeg_run (c : call) : bool :=
  match c with ffmpeg_run _ _ _ _ => true | _ => false end.

Definition is_fetch (c : call) : bool :=
  match c with get_file _ | download_to_drive _ _ => true | _ => false end.

Definition is_status (f : text -> bool) (c : call) : bool :=
  match c with edit_message_text t _ _ => f t | _ => false end.

Definition is_CompressionCanceled (t : text) : bool :=
  match t with CompressionCanceled => true | _ => false end.

Definition is_Uploading (t : text) : bool :=
  match t with Uploading _ _ _ => true | _ => false end.

Definition is_ErrorOccurred (t : text) : bool :=
  match t with ErrorOccurred _ => true | _ => false end.

(** The compressed video was sent / the encoder was run / the video was
    fetched / a status of the given kind was posted, in this trace. *)
Definition delivered (trace : list call) : bool := existsb is_send_video trace.
Definition encoded (trace : list call) : bool := existsb is_ffmpeg_run trace.
Definition fetched (trace : list call) : bool := existsb is_fetch trace.
Definition reported (f : text -> bool) (trace : list call) : bool :=
  existsb (is_status f) trace.

(** [active_tasks[user_id]["canceled"]], false when there is no entry. *)
Definition cancel_requested (s : store) (user_id : Z) : bool :=
  match active_tasks s !! user_id with
  | Some t => canceled t
  | None => false
  end.

(** The store a handler leaves when it runs to its end with nothing
    interleaved, its calls answered by [replies]. *)
Definition handled (m : coro unit) (replies : list reply) (s : store) : store :=
  store_of (exec (invoke m s) (alone replies)).

(** After a cancellation honoured at the end of the encode: the video is
    not announced as uploading and not sent, and the cancellation is
    posted. *)
Definition canceled_not_delivered (trace : list call) : Prop :=
  delivered trace = false /\
  reported is_Uploading trace = false /\
  reported is_CompressionCanceled trace = true.

(** [Q] holds of the final store, frame, trace and result once the
    coroutine has finished. *)
Definition at_end {A : Type}
    (Q : store -> frame -> list call -> exn + A -> Prop) (cfg : config A) : Prop :=
  match cfg with
  | Finished s fr trace r => Q s fr trace r
  | Running _ _ _ _ _ => True
  end.

(** ** Properties of suspensions and stores used by the claims *)

(** What follows an encode that returns with the cancellation flag set. *)
Definition encode_then_cancel (user_id : Z)
    (s : store) (fr : frame) (trace : list call) (c : call)
    (k : reply -> coro unit) : Prop :=
  forall i o cq q, c = ffmpeg_run i o cq q ->
  forall v s', cancel_requested s' user_id = true ->
    match run_sync (k (Returned v)) s' fr trace with
    | Running s1 _ _ c1 _ =>
        is_status is_CompressionCanceled c1 = true /\
        fs s1 !! i = None /\ fs s1 !! o = None
    | Finished _ _ _ _ => False
    end /\
    wp anything (k (Returned v))
       (fun _ _ trace' _ _ => canceled_not_delivered trace')
       (fun s1 fr1 trace' r =>
          canceled_not_delivered trace' /\ cleaned_up user_id s1 fr1 trace' r)
       s' fr trace.

(** What follows a download that returns with the cancellation flag set. *)
Definition download_then_cancel (user_id : Z)
    (s : store) (fr : frame) (trace : list call) (c : call)
    (k : reply -> coro unit) : Prop :=
  forall fid p, c = download_to_drive fid p ->
  forall v s', cancel_requested s' user_id = true ->
    match run_sync (k (Returned v)) s' fr trace with
    | Running s1 _ _ c1 _ =>
        is_Some (fs s' !! p) ->
        is_status is_CompressionCanceled c1 = true /\ fs s1 !! p = None
    | Finished _ _ _ _ => False
    end /\
    wp anything (k (Returned v))
       (fun _ _ trace' _ _ => encoded trace' = false /\ delivered trace' = false)
       (fun s1 fr1 trace' r =>
          (encoded trace' = false /\ delivered trace' = false) /\
          cleaned_up user_id s1 fr1 trace' r)
       s' fr trace.

(** What follows a status notification.  When the notification is the
    failure notice of the [except] block, whatever it answers the run ends
    at once with no further call.  When it is any other status and it
    raises [e], the only call that follows is the failure notice for [e],
    posted to the same message. *)
Definition report_failure_aborts (user_id : Z)
    (s : store) (fr : frame) (trace : list call) (c : call)
    (k : reply -> coro unit) : Prop :=
  forall t chat mid, c = edit_message_text t chat mid ->
    if is_ErrorOccurred t then
      forall r s',
        wp anything (k r) (fun _ _ _ _ _ => False)
           (fun s1 fr1 trace' res =>
              trace' = trace /\ cleaned_up user_id s1 fr1 trace' res)
           s' fr trace
    else
      forall e s',
        wp anything (k (Raised e))
           (fun _ _ trace' _ _ =>
              trace' = trace ++ [edit_message_text (ErrorOccurred e) chat mid])
           (fun s1 fr1 trace' res =>
              trace' = trace ++ [edit_message_text (ErrorOccurred e) chat mid] /\
              cleaned_up user_id s1 fr1 trace' res)
           s' fr trace.

(** The size limit [handle_video] applies to the user of [update]. *)
Definition size_limit_of (s : store) (update : Update) : Z :=
  if default false (is_premium (user_data_of s (effective_user update)))
  then PREMIUM_MAX_FILE_SIZE else MAX_FILE_SIZE.

(** No stored [pending_video] is lost from [s] to [s']. *)
Definition keeps_pending (s s' : store) : Prop :=
  forall u, is_Some (pending_video (user_data_of s u)) ->
            is_Some (pending_video (user_data_of s' u)).

(** [user_data] is the same in [s] and [s']. *)
Definition same_user_data (s s' : store) : Prop := user_data s' = user_data s.

(** The coroutines of the bot: its handlers on any update, and the
    pipeline. *)
Inductive bot_coroutine : coro unit -> Prop :=
| bot_start update : bot_coroutine (start update)
| bot_help_command update : bot_coroutine (help_command update)
| bot_settings_command update : bot_coroutine (settings_command update)
| bot_handle_settings_callback update :
    bot_coroutine (handle_settings_callback update)
| bot_cancel_command update : bot_coroutine (cancel_command update)
| bot_handle_video update : bot_coroutine (handle_video update)
| bot_handle_compression_callback update :
    bot_coroutine (handle_compression_callback update)
| bot_process_compression update user_id :
    bot_coroutine (process_compression update user_id).

(** The entry [handle_compression_callback] writes for [update] when the
    stored video is [v], the status message got id [mid] and the clock
    shows [time]. *)
Definition new_task (update : Update) (v : VideoInfo) (mid time : Z) : Task :=
  {| video_info := v;
     quality := remove_all "compress_" (query_data update);
     status_message_id := mid;
     start_time := time;
     canceled := false |}.

(** Each atomic step of a coroutine keeps the pending videos: the step
    that follows a suspension, from whatever store it resumes in. *)
Definition step_keeps_pending
    (s : store) (fr : frame) (trace : list call) (c : call)
    (k : reply -> coro unit) : Prop :=
  forall r s', keeps_pending s' (store_of (run_sync (k r) s' fr trace)).

(** ** A sample session

    User 7 in chat 70 sends videos and presses quality buttons; every call
    is answered at once unless said otherwise. *)
Definition sample_video (name : string) (size : Z) : Video :=
  {| file_id := "file-" +:+ name; file_name := Some name;
     file_size := size; mime_type := Some "video/mp4" |}.

Definition video_update (v : Video) : Update :=
  {| effective_user := 7; effective_chat := 70;
     message_video := Some v; message_document := None; query_data := "" |}.

Definition button_update (data : string) : Update :=
  {| effective_user := 7; effective_chat := 70;
     message_video := None; message_document := None; query_data := data |}.

Definition ok : reply := Returned 0.

(** A reply during which nothing else happens. *)
Definition undisturbed (r : reply) : reply * (store -> store) :=
  (r, fun s : store => s).

(** The user has sent [a.mp4] (1000 bytes) and got the quality prompt. *)
Definition video_received : store :=
  handled (handle_video (video_update (sample_video "a.mp4" 1000))) [ok] empty_store.

(** The user has then pressed the button carrying [data]; the status
    message got id 11. *)
Definition job_admitted (data : string) : store :=
  handled (handle_compression_callback (button_update data)) [ok; Returned 11]
    video_received.

(** The pipeline of that job. *)
Definition sample_run (data : string) (env : environment) : config unit :=
  exec (invoke (process_compression (button_update data) 7) (job_admitted data)) env.

(** [/cancel] from the same user, handled while a pipeline is suspended. *)
Definition cancel_arrives : store -> store :=
  handled (cancel_command (button_update "")) [ok].

Definition sample_input_path : string := "/tmp/tg_video_compressor/input_7_0_a.mp4".
Definition sample_output_path : string := "/tmp/tg_video_compressor/output_7_0_a.mp4".

(** The replies that take a pipeline up to its encode call: status posted,
    file found, 1000 bytes downloaded, status posted. *)
Definition up_to_encode : environment :=
  alone [ok; ok; Returned 1000; ok].

(** Two videos sent before any button is pressed, then both prompts
    pressed: "Low" on the first, and "High" on the second while the first
    job is still downloading. *)
Definition two_prompts : store :=
  handled (handle_video (video_update (sample_video "b.mp4" 2000))) [ok] video_received.

Definition first_job_admitted : store :=
  handled (handle_compression_callback (button_update "compress_low"))
    [ok; Returned 11] two_prompts.

Definition first_job_downloading : config unit :=
  invoke (process_compression (button_update "compress_low") 7) first_job_admitted.

Definition second_press : config unit :=
  exec (invoke (handle_compression_callback (button_update "compress_high"))
          (store_of first_job_downloading))
       (alone [ok; Returned 12]).

(** ** Steps of a coroutine

    A step is what a coroutine does between two suspensions: from the
    store in which it starts or resumes to the store it leaves at its next
    suspension or at its end. *)

(** [G] holds of every step of [m]: of the first, and of each later one
    whatever happened before it and whatever store it resumes in.  [G]
    also sees the frame the step ends with. *)
Definition every_step (G : store -> frame -> store -> Prop) (m : coro unit) : Prop :=
  (forall s, G s (frame_of (invoke m s)) (store_of (invoke m s))) /\
  (forall s env c r others,
     awaiting (exec (invoke m s) env) = Some c ->
     G (others (call_effect c r (store_of (exec (invoke m s) env))))
       (frame_of (exec (invoke m s) (env ++ [(r, others)])))
       (store_of (exec (invoke m s) (env ++ [(r, others)])))).

(** The step that follows a suspension satisfies [G]. *)
Definition next_step (G : store -> frame -> store -> Prop)
    (s : store) (fr : frame) (trace : list call) (c : call)
    (k : reply -> coro unit) : Prop :=
  forall r s',
    G s' (frame_of (run_sync (k r) s' fr trace))
      (store_of (run_sync (k r) s' fr trace)).

(** The user a coroutine works for: the sender of the update for a
    handler, the [user_id] argument for the pipeline. *)
Inductive acts_for : Z -> coro unit -> Prop :=
| acts_start update : acts_for (effective_user update) (start update)
| acts_help_command update : acts_for (effective_user update) (help_command update)
| acts_settings_command update :
    acts_for (effective_user update) (settings_command update)
| acts_handle_settings_callback update :
    acts_for (effective_user update) (handle_settings_callback update)
| acts_cancel_command update :
    acts_for (effective_user update) (cancel_command update)
| acts_handle_video update : acts_for (effective_user update) (handle_video update)
| acts_handle_compression_callback update :
    acts_for (effective_user update) (handle_compression_callback update)
| acts_process_compression update user_id :
    acts_for user_id (process_compression update user_id).

(** The handlers: every coroutine of the bot but the pipeline. *)
Inductive handler : coro unit -> Prop :=
| handler_start update : handler (start update)
| handler_help_command update : handler (help_command update)
| handler_settings_command update : handler (settings_command update)
| handler_handle_settings_callback update :
    handler (handle_settings_callback update)
| handler_cancel_command update : handler (cancel_command update)
| handler_handle_video update : handler (handle_video update)
| handler_handle_compression_callback update :
    handler (handle_compression_callback update).

(** No registry entry appears and no pipeline is created. *)
Definition admits_nothing (s : store) (_ : frame) (s' : store) : Prop :=
  (forall u, active_tasks s !! u = None -> active_tasks s' !! u = None) /\
  created_tasks s' = created_tasks s.

(** Nothing that belongs to a user other than [user_id] changes. *)
Definition leaves_others (user_id : Z) (s : store) (_ : frame) (s' : store) : Prop :=
  forall u, u <> user_id ->
    active_tasks s' !! u = active_tasks s !! u /\
    user_data s' !! u = user_data s !! u.

(** The scratch directory is left as it is. *)
Definition leaves_files (s : store) (_ : frame) (s' : store) : Prop :=
  fs s' = fs s.

(** What a step of the pipeline of [user_id] may change: it removes the
    entry of [user_id] or leaves it as it is, and it deletes its own input
    and output path or leaves them; every other entry, every other file,
    the user data and the list of created pipelines stay as they are. *)
Definition pipeline_footprint (user_id : Z) (s : store) (fr : frame) (s' : store) : Prop :=
  (forall u, active_tasks s' !! u = active_tasks s !! u \/
             (u = user_id /\ active_tasks s' !! u = None)) /\
  (forall p, fs s' !! p = fs s !! p \/
             ((l_input_path fr = Some p \/ l_output_path fr = Some p) /\
              fs s' !! p = None)) /\
  user_data s' = user_data s /\
  created_tasks s' = created_tasks s.

(** No user's premium flag changes. *)
Definition keeps_premium (s : store) (_ : frame) (s' : store) : Prop :=
  forall u, is_premium (user_data_of s' u) = is_premium (user_data_of s u).

(** No user's default quality changes. *)
Definition keeps_default_quality (s : store) (_ : frame) (s' : store) : Prop :=
  forall u, default_quality (user_data_of s' u) = default_quality (user_data_of s u).

(** [old] occurs somewhere in [s]. *)
Fixpoint occurs (old s : string) : bool :=
  match s with
  | EmptyString => starts_with old EmptyString
  | String _ s' => starts_with old s || occurs old s'
  end.



(** ** More of the sample session *)

(** The task of the sample job: [a.mp4], quality "low", status message 11. *)
Definition sample_task : Task :=
  new_task (button_update "compress_low")
    (pending_video_of (sample_video "a.mp4" 1000) 0) 11 0.

Definition low_preset : Preset :=
  {| crf := 28; preset := "veryfast";
     description := "Small file size, lower quality" |}.

(** A job for a video whose declared size is zero. *)
Definition zero_size_task : Task :=
  new_task (button_update "compress_low")
    (pending_video_of (sample_video "empty.mp4" 0) 0) 11 0.

Definition zero_size_admitted : store :=
  handled (handle_compression_callback (button_update "compress_low"))
    [ok; Returned 11]
    (handled (handle_video (video_update (sample_video "empty.mp4" 0))) [ok]
       empty_store).

(** The replies of a run in which every call succeeds: 1000 bytes are
    downloaded and 400 bytes come out of the encoder. *)
Definition all_succeed : list reply :=
  [Returned 1; Returned 2; Returned 1000; Returned 3; Returned 400;
   Returned 4; Returned 5; Returned 6].

(** * Proofs *)

(** ** Adequacy of the program logic *)

Section Adequacy.
Context {A : Type} (R : store -> store -> Prop).
Implicit Types (m : coro A) (env : environment).

Lemma exec_Finished s fr trace (r : exn + A) env :
  exec (Finished s fr trace r) env = Finished s fr trace r.
Proof.
  induction env as [|[r' o] env IH]; simpl; auto.
Qed.

Lemma wp_run_sync m P Q s fr trace :
  wp R m P Q s fr trace ->
  match run_sync m s fr trace with
  | Running s' fr' trace' c k =>
      P s' fr' trace' c k /\
      forall r s'', R (call_effect c r s') s'' -> wp R (k r) P Q s'' fr' trace'
  | Finished s' fr' trace' r => Q s' fr' trace' r
  end.
Proof.
  revert s fr trace.
  induction m as [a|e|k IH|s0 k IH|fr0 k IH|c k IH]; intros s fr trace H; simpl in *;
    try (apply IH; exact H); auto.
Qed.

Lemma wp_exec m P Q s fr trace env :
  wp R m P Q s fr trace ->
  respects R env ->
  match exec (run_sync m s fr trace) env with
  | Running s' fr' trace' c k => P s' fr' trace' c k
  | Finished s' fr' trace' r => Q s' fr' trace' r
  end.
Proof.
  intros H Henv. revert m s fr trace H.
  induction Henv as [|[r o] env Ho Henv IH]; intros m s fr trace H.
  - simpl. apply wp_run_sync in H.
    destruct (run_sync m s fr trace); tauto.
  - simpl. apply wp_run_sync in H.
    destruct (run_sync m s fr trace) as [s' fr' trace' c k|s' fr' trace' res]; simpl.
    + destruct H as [_ H]. apply IH, H, Ho.
    + rewrite exec_Finished. exact H.
Qed.

Lemma wp_mono m (P P' : store -> frame -> list call -> call -> (reply -> coro A) -> Prop)
    (Q Q' : store -> frame -> list call -> exn + A -> Prop) s fr trace :
  (forall s fr trace c k, P s fr trace c k -> P' s fr trace c k) ->
  (forall s fr trace r, Q s fr trace r -> Q' s fr trace r) ->
  wp R m P Q s fr trace -> wp R m P' Q' s fr trace.
Proof.
  intros HP HQ. revert s fr trace.
  induction m as [a|e|k IH|s0 k IH|fr0 k IH|c k IH]; intros s fr trace H; simpl in *;
    try (apply IH; exact H); auto.
  destruct H as [H1 H2]. split; auto.
Qed.

Lemma awaits_le_run_sync n m s fr trace :
  awaits_le n m s fr ->
  match run_sync m s fr trace with
  | Running _ fr' _ c k =>
      exists n', n = S n' /\ forall r s', awaits_le n' (k r) s' fr'
  | Finished _ _ _ _ => True
  end.
Proof.
  revert s fr trace.
  induction m as [a|e|k IH|s0 k IH|fr0 k IH|c k IH]; intros s fr trace H; simpl in *;
    try (apply IH; exact H); auto.
  destruct n as [|n']; [contradiction|]. eauto.
Qed.

Lemma awaits_le_exec n m s fr trace env :
  awaits_le n m s fr ->
  (n <= length env)%nat ->
  finished (exec (run_sync m s fr trace) env) = true.
Proof.
  revert n m s fr trace.
  induction env as [|[r o] env IH]; intros n m s fr trace H Hlen; simpl in *.
  - apply (awaits_le_run_sync _ _ _ _ trace) in H.
    destruct (run_sync m s fr trace); [|reflexivity].
    destruct H as (n' & -> & _). lia.
  - apply (awaits_le_run_sync _ _ _ _ trace) in H.
    destruct (run_sync m s fr trace) as [s' fr' trace' c k|s' fr' trace' res]; simpl.
    + destruct H as (n' & -> & H). apply (IH n'); [apply H|lia].
    + rewrite exec_Finished. reflexivity.
Qed.
End Adequacy.

(** ** The [finally] block *)

Ltac case_exists :=
  match goal with
  | H : os_path_exists ?s ?p = _ |- context [os_path_exists ?s ?p] => rewrite H
  | H : bool_decide ?P = _ |- context [bool_decide ?P] => rewrite H
  | |- context [os_path_exists ?s ?p] => destruct (os_path_exists s p) eqn:?
  | |- context [bool_decide ?P] => destruct (bool_decide P) eqn:?
  end.

Lemma cleanup_run_sync {A : Type} user_id (g : unit -> coro A) s fr trace :
  run_sync (bind (process_compression_finally user_id) g) s fr trace =
  run_sync (g tt) (cleanup user_id fr s) fr trace.
Proof.
  unfold process_compression_finally, cleanup, cleanup_files, remove_existing.
  destruct fr as [mid [ip|] [op|]]; cbn;
    repeat (case_exists; cbn); reflexivity.
Qed.

Lemma cleanup_wp {A : Type} R user_id (g : unit -> coro A) P Q s fr trace :
  wp R (g tt) P Q (cleanup user_id fr s) fr trace ->
  wp R (bind (process_compression_finally user_id) g) P Q s fr trace.
Proof.
  unfold process_compression_finally, cleanup, cleanup_files, remove_existing.
  destruct fr as [mid [ip|] [op|]]; cbn;
    repeat (case_exists; cbn); auto.
Qed.

Lemma cleanup_active_tasks user_id fr s :
  active_tasks (cleanup user_id fr s) !! user_id = None.
Proof.
  unfold cleanup. case_bool_decide as H; cbn.
  - apply lookup_delete_eq.
  - destruct (active_tasks _ !! user_id) eqn:E; [|reflexivity].
    exfalso. apply H. eauto.
Qed.

Lemma fs_remove_existing_eq p s : fs (remove_existing p s) !! p = None.
Proof.
  unfold remove_existing, os_path_exists. case_bool_decide as H; cbn.
  - apply lookup_delete_eq.
  - destruct (fs s !! p) eqn:E; [|reflexivity]. exfalso. apply H. eauto.
Qed.

Lemma fs_remove_existing_None p q s :
  fs s !! q = None -> fs (remove_existing p s) !! q = None.
Proof.
  unfold remove_existing. intros H. destruct (os_path_exists s p); cbn; auto.
  rewrite lookup_delete. case_decide; auto.
Qed.

Lemma active_tasks_remove_existing p s :
  active_tasks (remove_existing p s) = active_tasks s.
Proof. unfold remove_existing. destruct (os_path_exists s p); reflexivity. Qed.

Lemma fs_cleanup user_id fr s i o :
  l_input_path fr = Some i -> l_output_path fr = Some o ->
  fs (cleanup user_id fr s) !! i = None /\ fs (cleanup user_id fr s) !! o = None.
Proof.
  intros Hi Ho. unfold cleanup, cleanup_files. rewrite Hi, Ho.
  assert (fs (remove_existing o (remove_existing i s)) !! i = None /\
          fs (remove_existing o (remove_existing i s)) !! o = None) as [H1 H2].
  { split; [apply fs_remove_existing_None|]; apply fs_remove_existing_eq. }
  case_bool_decide; cbn; auto.
Qed.

Lemma fs_cleanup_input user_id fr s i o :
  l_input_path fr = Some i -> l_output_path fr = Some o ->
  fs (cleanup user_id fr s) !! i = None.
Proof. intros Hi Ho. eapply proj1, fs_cleanup; eassumption. Qed.

Lemma fs_cleanup_output user_id fr s i o :
  l_input_path fr = Some i -> l_output_path fr = Some o ->
  fs (cleanup user_id fr s) !! o = None.
Proof. intros Hi Ho. eapply proj2, fs_cleanup; eassumption. Qed.

Ltac head_scrutinee m :=
  lazymatch m with
  | bind ?m' _ => head_scrutinee m'
  | try_except ?m' _ => head_scrutinee m'
  | try_finally ?m' _ => head_scrutinee m'
  | subscript _ ?o => o
  | local _ ?o => o
  | match ?x with _ => _ end => x
  end.

Ltac case_on x :=
  first [ match goal with H : x = _ |- _ => rewrite H end
        | destruct x eqn:? ].

Ltac unfold_ops :=
  cbv delta [await get_store get_frame modify modify_frame logger_error
             os_remove os_path_getsize open_rb del_active_task
             remove_if_exists size_reduction compress_video write_user_data].

Ltac wp_cbn :=
  unfold_ops;
  cbn [wp bind try_except try_finally subscript local for_each app
       l_status_message_id l_input_path l_output_path empty_frame].

Ltac wp_step tacP tacQ :=
  wp_cbn;
  lazymatch goal with
  | |- _ /\ _ => split; [tacP | intros [?v|?e] ?s ?HR]
  | |- wp _ (bind (process_compression_finally _) _) _ _ _ _ _ =>
      apply cleanup_wp; cbn [wp]; tacQ
  | |- wp _ ?m _ _ _ _ _ => let x := head_scrutinee m in case_on x
  | |- _ => tacQ
  end.

Ltac in_trace H :=
  cbn [In] in H;
  repeat match type of H with
         | _ \/ _ => destruct H as [H|H]
         | False => contradiction
         | _ = _ => first [discriminate H | injection H as <- <- | injection H as <- <- <- <-]
         end.

Ltac gone :=
  first [ eapply fs_cleanup_input; reflexivity
        | eapply fs_cleanup_output; reflexivity ].

Ltac cleaned_up_leaf :=
  unfold cleaned_up; cbn [l_input_path l_output_path];
  split; [reflexivity|];
  split; [apply cleanup_active_tasks|];
  split; [intros ? [= <-]; gone|];
  split; [intros ? [= <-]; gone|];
  split;
  [ intros ? ? Hin; in_trace Hin; gone
  | intros ? ? ? ? Hin; in_trace Hin; split; gone ].

Lemma process_compression_cleaned_up update user_id s :
  wp anything (process_compression update user_id)
     (fun _ _ _ _ _ => True) (cleaned_up user_id) s empty_frame [].
Proof.
  unfold process_compression, process_compression_body, process_compression_except.
  repeat wp_step ltac:(exact I) ltac:(cleaned_up_leaf).
Qed.

Lemma cleanup_awaits_le {A : Type} n user_id (g : unit -> coro A) s fr :
  awaits_le n (g tt) (cleanup user_id fr s) fr ->
  awaits_le n (bind (process_compression_finally user_id) g) s fr.
Proof.
  unfold process_compression_finally, cleanup, cleanup_files, remove_existing.
  destruct fr as [mid [ip|] [op|]]; cbn;
    repeat (case_exists; cbn); auto.
Qed.

Ltac awaits_step :=
  unfold_ops;
  cbn [awaits_le bind try_except try_finally subscript local for_each
       l_status_message_id l_input_path l_output_path empty_frame];
  lazymatch goal with
  | |- True => exact I
  | |- forall _, _ => intros [?v|?e] ?s
  | |- awaits_le _ (bind (process_compression_finally _) _) _ _ =>
      apply cleanup_awaits_le; cbn [awaits_le]; exact I
  | |- awaits_le _ ?m _ _ => let x := head_scrutinee m in case_on x
  end.

Lemma process_compression_awaits_le update user_id s :
  awaits_le 9 (process_compression update user_id) s empty_frame.
Proof.
  unfold process_compression, process_compression_body, process_compression_except.
  repeat awaits_step.
Qed.

Lemma respects_anything env : respects anything env.
Proof. apply Forall_forall. intros; exact I. Qed.

(** C2.  Terminal cleanup: whatever the awaited calls answer (return or
    raise, the encode included) and whatever the rest of the system does
    to the store meanwhile, a pipeline run ends after at most nine
    suspensions, it ends without an exception escaping, and when it ends
    the registry has no entry for the user and neither the input path nor
    the output path of the run exists. *)
Theorem C2_terminal_cleanup update user_id s env :
  (9 <= length env)%nat ->
  exists s' fr' trace' r,
    exec (invoke (process_compression update user_id) s) env
      = Finished s' fr' trace' r /\
    cleaned_up user_id s' fr' trace' r.
Proof.
  intros Hlen.
  pose proof (wp_exec anything _ _ _ s empty_frame [] env
                (process_compression_cleaned_up update user_id s)
                (respects_anything env)) as Hwp.
  pose proof (awaits_le_exec _ _ _ _ [] env
                (process_compression_awaits_le update user_id s) Hlen) as Hfin.
  unfold invoke.
  destruct (exec _ env) as [s' fr' trace' c k|s' fr' trace' r]; [discriminate|].
  exists s', fr', trace', r. split; [reflexivity|]. exact Hwp.
Qed.

Lemma exec_app {A : Type} (cfg : config A) env1 env2 :
  exec cfg (env1 ++ env2) = exec (exec cfg env1) env2.
Proof.
  revert cfg. induction env1 as [|[r o] env1 IH]; intros cfg; simpl; auto.
Qed.

Ltac use_cancel_requested H :=
  unfold cancel_requested in H;
  lazymatch type of H with
  | context [active_tasks ?s !! ?u] =>
      destruct (active_tasks s !! u) eqn:?; [|discriminate H]
  end.

Ltac run_cbn :=
  unfold_ops;
  cbn [run_sync bind try_except try_finally subscript local for_each app
       l_status_message_id l_input_path l_output_path empty_frame].

Ltac run_step :=
  run_cbn;
  lazymatch goal with
  | |- context [run_sync ?m _ _ _] => let x := head_scrutinee m in case_on x
  end.

Lemma os_path_exists_false s p : os_path_exists s p = false -> fs s !! p = None.
Proof.
  unfold os_path_exists. intros H. apply bool_decide_eq_false in H.
  destruct (fs s !! p); [|reflexivity]. exfalso. apply H. eauto.
Qed.

Ltac fs_none :=
  first [ assumption | reflexivity | congruence
        | rewrite lookup_delete; case_decide; [reflexivity|fs_none] ].

Ltac fs_gone :=
  repeat match goal with
         | H : os_path_exists _ _ = false |- _ => apply os_path_exists_false in H
         end;
  cbn [fs set_fs] in *; fs_none.

Lemma process_compression_encode_then_cancel update user_id s :
  wp anything (process_compression update user_id)
     (encode_then_cancel user_id) (fun _ _ _ _ => True) s empty_frame [].
Proof.
  unfold process_compression, process_compression_body, process_compression_except.
  repeat wp_step
    ltac:(intros ? ? ? ? Heq; first [discriminate Heq | idtac])
    ltac:(exact I).
  injection Heq as <- <- <- <-.
  intros v3 s' Hc. use_cancel_requested Hc. split.
  - repeat run_step; run_cbn.
    all: split; [reflexivity|split; fs_gone].
  - repeat wp_step
      ltac:(repeat split; reflexivity)
      ltac:(split; [repeat split; reflexivity|cleaned_up_leaf]).
Qed.

(** C6.  Best-effort cancellation during the encode: when the pipeline is
    suspended on the encode call, the call returns, and the user's
    [canceled] flag is set by then, the next thing the pipeline does is
    delete the input and the output file and post the cancellation; from
    then on it never announces an upload and never sends the video, and
    when it ends the entry and the files are gone. *)
Theorem C6_cancel_during_encode update user_id s pre i o cq q v others post :
  let run := exec (invoke (process_compression update user_id) s) in
  awaiting (run pre) = Some (ffmpeg_run i o cq q) ->
  cancel_requested
    (others (call_effect (ffmpeg_run i o cq q) (Returned v) (store_of (run pre))))
    user_id = true ->
  (exists c, awaiting (run (pre ++ [(Returned v, others)])) = Some c /\
             is_status is_CompressionCanceled c = true) /\
  fs (store_of (run (pre ++ [(Returned v, others)]))) !! i = None /\
  fs (store_of (run (pre ++ [(Returned v, others)]))) !! o = None /\
  canceled_not_delivered (trace_of (run (pre ++ (Returned v, others) :: post))) /\
  at_end (cleaned_up user_id) (run (pre ++ (Returned v, others) :: post)).
Proof.
  intros run Haw Hc.
  pose proof (wp_exec anything _ _ _ s empty_frame [] pre
                (process_compression_encode_then_cancel update user_id s)
                (respects_anything pre)) as HP.
  fold (invoke (process_compression update user_id) s) in HP. fold run in HP.
  assert (forall rest, run (pre ++ rest) = exec (run pre) rest) as Happ
    by (intros; apply exec_app).
  rewrite !Happ.
  destruct (run pre) as [s1 fr1 trace1 c1 k1|]; [|discriminate Haw].
  cbn in Haw. injection Haw as ->. cbn [store_of] in Hc.
  destruct (HP i o cq q eq_refl v _ Hc) as [Hnext Hwp].
  cbn [exec resume].
  pose proof (wp_exec anything _ _ _ _ fr1 trace1 post Hwp (respects_anything post)) as Hpost.
  destruct (run_sync (k1 (Returned v)) _ fr1 trace1) as [s2 fr2 trace2 c2 k2|];
    [|contradiction].
  destruct Hnext as (Hc2 & Hi & Ho).
  split; [exists c2; split; [reflexivity|exact Hc2]|].
  split; [exact Hi|]. split; [exact Ho|].
  destruct (exec _ post); cbn [trace_of at_end]; tauto.
Qed.

Lemma os_path_exists_true s p : is_Some (fs s !! p) -> os_path_exists s p = true.
Proof. intros H. unfold os_path_exists. apply bool_decide_eq_true. exact H. Qed.

Lemma process_compression_download_then_cancel update user_id s :
  wp anything (process_compression update user_id)
     (download_then_cancel user_id) (fun _ _ _ _ => True) s empty_frame [].
Proof.
  unfold process_compression, process_compression_body, process_compression_except.
  repeat wp_step
    ltac:(intros ? ? Heq; first [discriminate Heq | idtac])
    ltac:(exact I).
  injection Heq as <- <-.
  intros v3 s' Hc. use_cancel_requested Hc. split.
  - repeat run_step; run_cbn.
    + intros _. split; [reflexivity|]. cbn [fs set_fs]. apply lookup_delete_eq.
    + intros Hex. apply os_path_exists_true in Hex. congruence.
  - repeat wp_step
      ltac:(repeat split; reflexivity)
      ltac:(split; [repeat split; reflexivity|cleaned_up_leaf]).
Qed.

(** C3 (amended).  The pipeline has no cancellation check before the
    download.  For a registered job, whatever its [canceled] flag is and
    whatever happens during the first two calls, once the "Downloading"
    status and the file lookup have returned the video is downloaded.
    The flag is first read when the download returns: if it is set then,
    the encoder is never run and nothing is delivered, the run ends with
    the entry and its files removed, and (when the downloaded file is
    still there) the input file is deleted and the cancellation posted at
    once. *)
Theorem C3_cancel_honoured_after_download update user_id s t :
  active_tasks s !! user_id = Some t ->
  let run := exec (invoke (process_compression update user_id) s) in
  (forall v1 o1 v2 o2,
     exists p, awaiting (run [(Returned v1, o1); (Returned v2, o2)])
               = Some (download_to_drive (vi_file_id (video_info t)) p)) /\
  (forall pre fid p v others post,
     awaiting (run pre) = Some (download_to_drive fid p) ->
     let s' := others (call_effect (download_to_drive fid p) (Returned v)
                         (store_of (run pre))) in
     cancel_requested s' user_id = true ->
     (is_Some (fs s' !! p) ->
      (exists c, awaiting (run (pre ++ [(Returned v, others)])) = Some c /\
                 is_status is_CompressionCanceled c = true) /\
      fs (store_of (run (pre ++ [(Returned v, others)]))) !! p = None) /\
     encoded (trace_of (run (pre ++ (Returned v, others) :: post))) = false /\
     delivered (trace_of (run (pre ++ (Returned v, others) :: post))) = false /\
     at_end (cleaned_up user_id) (run (pre ++ (Returned v, others) :: post))).
Proof.
  intros Ht run. split.
  - intros v1 o1 v2 o2. subst run. unfold invoke, process_compression, process_compression_body.
    cbn [exec resume]. run_cbn. rewrite Ht. run_cbn. eexists. reflexivity.
  - intros pre fid p v others post Haw s' Hc.
    pose proof (wp_exec anything _ _ _ s empty_frame [] pre
                  (process_compression_download_then_cancel update user_id s)
                  (respects_anything pre)) as HP.
    fold (invoke (process_compression update user_id) s) in HP. fold run in HP.
    assert (forall rest, run (pre ++ rest) = exec (run pre) rest) as Happ
      by (intros; apply exec_app).
    rewrite !Happ. subst s'.
    destruct (run pre) as [s1 fr1 trace1 c1 k1|]; [|discriminate Haw].
    cbn in Haw. injection Haw as ->. cbn [store_of] in Hc |- *.
    destruct (HP fid p eq_refl v _ Hc) as [Hnext Hwp].
    cbn [exec resume].
    pose proof (wp_exec anything _ _ _ _ fr1 trace1 post Hwp (respects_anything post))
      as Hpost.
    destruct (run_sync (k1 (Returned v)) _ fr1 trace1) as [s2 fr2 trace2 c2 k2|];
      [|contradiction].
    split.
    + intros Hex. destruct (Hnext Hex) as [Hc2 Hp].
      split; [exists c2; split; [reflexivity|exact Hc2]|exact Hp].
    + destruct (exec _ post); cbn [trace_of at_end]; tauto.
Qed.

Lemma process_compression_report_failure_aborts update user_id s :
  wp anything (process_compression update user_id)
     (report_failure_aborts user_id) (fun _ _ _ _ => True) s empty_frame [].
Proof.
  unfold process_compression, process_compression_body, process_compression_except.
  repeat wp_step
    ltac:(intros ? ? ? Heq;
          first [ discriminate Heq
                | injection Heq as <- <- <-; cbn [is_ErrorOccurred]; intros ? ?;
                  repeat wp_step
                    ltac:(reflexivity)
                    ltac:(split; [reflexivity|cleaned_up_leaf]) ])
    ltac:(exact I).
Qed.

(** C4 (amended).  A failing progress notification is not isolated.
    When any status notification of the pipeline other than the failure
    notice raises [e], the pipeline is aborted: the one and only call made
    afterwards is the failure notice for [e] on the same message, no later
    stage runs, and the cleanup still runs at the end.  Only the failure
    notice itself is isolated: whether it returns or raises, the run ends
    at once, with no further call, cleaned up. *)
Theorem C4_report_failure_aborts update user_id s :
  let run := exec (invoke (process_compression update user_id) s) in
  (forall pre t chat mid e others post,
     awaiting (run pre) = Some (edit_message_text t chat mid) ->
     is_ErrorOccurred t = false ->
     trace_of (run (pre ++ (Raised e, others) :: post))
       = trace_of (run pre) ++ [edit_message_text (ErrorOccurred e) chat mid] /\
     at_end (cleaned_up user_id) (run (pre ++ (Raised e, others) :: post))) /\
  (forall pre e0 chat mid r others post,
     awaiting (run pre) = Some (edit_message_text (ErrorOccurred e0) chat mid) ->
     finished (run (pre ++ (r, others) :: post)) = true /\
     trace_of (run (pre ++ (r, others) :: post)) = trace_of (run pre) /\
     at_end (cleaned_up user_id) (run (pre ++ (r, others) :: post))).
Proof.
  intros run.
  assert (forall pre rest, run (pre ++ rest) = exec (run pre) rest) as Happ
    by (intros; apply exec_app).
  assert (forall pre,
            match run pre with
            | Running s' fr' trace' c k => report_failure_aborts user_id s' fr' trace' c k
            | Finished _ _ _ _ => True
            end) as HP.
  { intros pre.
    apply (wp_exec anything _ _ _ s empty_frame [] pre
             (process_compression_report_failure_aborts update user_id s)
             (respects_anything pre)). }
  split.
  - intros pre t chat mid e others post Haw Ht.
    rewrite !Happ. specialize (HP pre).
    destruct (run pre) as [s1 fr1 trace1 c1 k1|]; [|discriminate Haw].
    cbn in Haw. injection Haw as ->.
    specialize (HP t chat mid eq_refl). rewrite Ht in HP.
    cbn [exec resume trace_of].
    pose proof (wp_exec anything _ _ _
                  (others (call_effect (edit_message_text t chat mid) (Raised e) s1))
                  fr1 trace1 post (HP e _) (respects_anything post)) as Hpost.
    destruct (exec _ post); cbn [trace_of at_end]; tauto.
  - intros pre e0 chat mid r others post Haw.
    rewrite !Happ. specialize (HP pre).
    destruct (run pre) as [s1 fr1 trace1 c1 k1|]; [|discriminate Haw].
    cbn in Haw. injection Haw as ->.
    specialize (HP _ chat mid eq_refl). cbn [is_ErrorOccurred] in HP.
    cbn [exec resume trace_of].
    pose proof (wp_exec anything _ _ _
                  (others (call_effect (edit_message_text (ErrorOccurred e0) chat mid)
                             r s1))
                  fr1 trace1 post (HP r _) (respects_anything post)) as Hpost.
    destruct (exec _ post); cbn [trace_of at_end finished]; [contradiction|tauto].
Qed.

Lemma process_compression_unknown_preset update user_id s t :
  active_tasks s !! user_id = Some t ->
  COMPRESSION_PRESETS !! quality t = None ->
  wp anything (process_compression update user_id)
     (fun _ _ trace _ _ => encoded trace = false /\ delivered trace = false)
     (fun s1 fr1 trace r =>
        (encoded trace = false /\ delivered trace = false) /\
        cleaned_up user_id s1 fr1 trace r)
     s empty_frame [].
Proof.
  intros Ht Hq.
  unfold process_compression, process_compression_body, process_compression_except.
  repeat wp_step
    ltac:(repeat split; reflexivity)
    ltac:(split; [repeat split; reflexivity|cleaned_up_leaf]).
Qed.

(** C8.  Size-reduction arithmetic: for a positive original size the
    percentage is computed without a division error, it is
    100 - (output_size / file_size) * 100, and it is negative when the
    output is larger than the input. *)
Theorem C8_size_reduction output_size file_size :
  0 < file_size ->
  exists q : Q,
    size_reduction output_size file_size = Ret q /\
    (q == 100 - (inject_Z output_size / inject_Z file_size) * 100)%Q /\
    (file_size < output_size -> (q < 0)%Q).
Proof.
  intros Hpos. unfold size_reduction.
  destruct (file_size =? 0)%Z eqn:E; [apply Z.eqb_eq in E; lia|].
  eexists. split; [reflexivity|]. split; [reflexivity|].
  intros Hlt.
  assert (0 < inject_Z file_size)%Q as Hq by (rewrite <- (Zlt_Qlt 0); exact Hpos).
  assert (1 < inject_Z output_size / inject_Z file_size)%Q as H1.
  { apply Qlt_shift_div_l; [exact Hq|]. rewrite Qmult_1_l.
    rewrite <- Zlt_Qlt. exact Hlt. }
  set (x := (inject_Z output_size / inject_Z file_size)%Q) in *.
  lra.
Qed.

Lemma size_reduction_zero output_size :
  size_reduction output_size 0 = Throw ZeroDivisionError.
Proof. reflexivity. Qed.

Ltac handler_cbn :=
  cbn [invoke handled exec alone map resume run_sync bind try_except try_finally
       get_store get_frame modify modify_frame await subscript local
       write_user_data store_of awaiting trace_of app].

Lemma exec_alone_Finished {A : Type} s fr trace (r : exn + A) replies :
  exec (Finished s fr trace r) (alone replies) = Finished s fr trace r.
Proof. apply exec_Finished. Qed.

Lemma handle_video_AlreadyActive update s replies :
  is_Some (active_tasks s !! effective_user update) ->
  awaiting (invoke (handle_video update) s)
    = Some (reply_text (effective_chat update) AlreadyActive) /\
  handled (handle_video update) replies s = s.
Proof.
  intros Hact. unfold handled, handle_video. handler_cbn.
  rewrite bool_decide_eq_true_2 by exact Hact. handler_cbn.
  split; [reflexivity|].
  destruct replies as [|[v|e] replies]; handler_cbn;
    rewrite ?exec_Finished; reflexivity.
Qed.

Lemma handle_video_TooLarge update s video replies :
  active_tasks s !! effective_user update = None ->
  or_else (message_video update) (message_document update) = Some video ->
  size_limit_of s update < file_size video ->
  awaiting (invoke (handle_video update) s)
    = Some (reply_text (effective_chat update)
              (TooLarge (size_limit_of s update)
                 (default false (is_premium (user_data_of s (effective_user update)))))) /\
  handled (handle_video update) replies s = s.
Proof.
  intros Hact Hvid Hsize. unfold handled, handle_video, size_limit_of in *. handler_cbn.
  rewrite Hact, Hvid.
  rewrite bool_decide_eq_false_2 by (intros [? ?]; discriminate). handler_cbn.
  apply Z.ltb_lt in Hsize. rewrite Hsize. handler_cbn.
  split; [reflexivity|].
  destruct replies as [|[v|e] replies]; handler_cbn;
    rewrite ?exec_Finished; reflexivity.
Qed.

Lemma handle_video_accepted update s video :
  active_tasks s !! effective_user update = None ->
  or_else (message_video update) (message_document update) = Some video ->
  file_size video <= size_limit_of s update ->
  awaiting (invoke (handle_video update) s)
    = Some (reply_text (effective_chat update)
              (VideoReceived (file_size video)
                 (capitalize
                    (default "medium"
                       (default_quality (user_data_of s (effective_user update))))))) /\
  (forall v,
     let s' := handled (handle_video update) [Returned v] s in
     pending_video (user_data_of s' (effective_user update))
       = Some (pending_video_of video (now s)) /\
     active_tasks s' = active_tasks s /\ fs s' = fs s).
Proof.
  intros Hact Hvid Hsize. unfold handled, handle_video, size_limit_of in *. handler_cbn.
  rewrite Hact, Hvid.
  rewrite bool_decide_eq_false_2 by (intros [? ?]; discriminate). handler_cbn.
  apply Z.ltb_ge in Hsize. rewrite Hsize. handler_cbn.
  split; [reflexivity|].
  intros v. cbn. unfold user_data_of at 1. cbn.
  rewrite lookup_insert_eq. cbn. auto.
Qed.

(** C7.  Size gate: the limits are 50 MB (52428800 bytes) and 2 GB
    (2147483648 bytes, for premium users).  For a user with no active task
    who sends a video, a file size above the limit is answered with the
    too-large message and leaves the store unchanged whatever follows (no
    entry, no file, no pending video); a size that is at most the limit
    passes the check and is answered with the quality prompt. *)
Theorem C7_size_gate update s video :
  active_tasks s !! effective_user update = None ->
  or_else (message_video update) (message_document update) = Some video ->
  MAX_FILE_SIZE = 52428800 /\
  PREMIUM_MAX_FILE_SIZE = 2147483648 /\
  (size_limit_of s update < file_size video ->
   awaiting (invoke (handle_video update) s)
     = Some (reply_text (effective_chat update)
               (TooLarge (size_limit_of s update)
                  (default false (is_premium (user_data_of s (effective_user update)))))) /\
   forall replies, handled (handle_video update) replies s = s) /\
  (file_size video <= size_limit_of s update ->
   exists quality,
     awaiting (invoke (handle_video update) s)
       = Some (reply_text (effective_chat update)
                 (VideoReceived (file_size video) quality))).
Proof.
  intros Hact Hvid.
  split; [reflexivity|]. split; [reflexivity|]. split.
  - intros Hsize. split.
    + apply (handle_video_TooLarge update s video []); assumption.
    + intros replies. apply (handle_video_TooLarge update s video replies); assumption.
  - intros Hsize. eexists.
    apply (handle_video_accepted update s video); assumption.
Qed.

(** C10.  Default quality fallback: for a user whose data has no default
    quality stored, the settings message and the video-received prompt
    both show "medium" (capitalised, as every quality is shown). *)
Theorem C10_default_quality_fallback update s :
  default_quality (user_data_of s (effective_user update)) = None ->
  awaiting (invoke (settings_command update) s)
    = Some (reply_text (effective_chat update) (SETTINGS_MESSAGE (capitalize "medium"))) /\
  (forall video,
     active_tasks s !! effective_user update = None ->
     or_else (message_video update) (message_document update) = Some video ->
     file_size video <= size_limit_of s update ->
     awaiting (invoke (handle_video update) s)
       = Some (reply_text (effective_chat update)
                 (VideoReceived (file_size video) (capitalize "medium")))).
Proof.
  intros Hdq. split.
  - unfold settings_command. handler_cbn. rewrite Hdq. reflexivity.
  - intros video Hact Hvid Hsize.
    destruct (handle_video_accepted update s video Hact Hvid Hsize) as [-> _].
    rewrite Hdq. reflexivity.
Qed.

Lemma user_data_call_effect c r s : user_data (call_effect c r s) = user_data s.
Proof. destruct c, r; reflexivity. Qed.

Lemma user_data_remove_existing p s : user_data (remove_existing p s) = user_data s.
Proof. unfold remove_existing. destruct (os_path_exists s p); reflexivity. Qed.

Lemma user_data_cleanup user_id fr s : user_data (cleanup user_id fr s) = user_data s.
Proof.
  unfold cleanup, cleanup_files.
  destruct (l_input_path fr), (l_output_path fr); case_bool_decide; cbn;
    rewrite ?user_data_remove_existing; reflexivity.
Qed.

Lemma keeps_pending_refl s : keeps_pending s s.
Proof. intros u H; exact H. Qed.

Lemma keeps_pending_trans s1 s2 s3 :
  keeps_pending s1 s2 -> keeps_pending s2 s3 -> keeps_pending s1 s3.
Proof. intros H1 H2 u H. apply H2, H1, H. Qed.

Lemma keeps_pending_same s s' : user_data s' = user_data s -> keeps_pending s s'.
Proof. intros E u. unfold user_data_of. rewrite E. auto. Qed.

Lemma keeps_pending_write s u f :
  (forall d, is_Some (pending_video d) -> is_Some (pending_video (f d))) ->
  keeps_pending s (set_user_data (<[u := f (user_data_of s u)]>) s).
Proof.
  intros Hf w Hw. unfold user_data_of at 1. cbn [user_data set_user_data].
  rewrite lookup_insert. case_decide as E.
  - subst w. cbn. apply Hf, Hw.
  - exact Hw.
Qed.

Ltac keeps :=
  idtac;
  lazymatch goal with
  | |- keeps_pending ?s ?s => apply keeps_pending_refl
  | H : keeps_pending ?y ?x |- keeps_pending _ ?x =>
      apply (keeps_pending_trans _ y); [keeps|exact H]
  | |- keeps_pending _ (set_user_data (<[_ := set_pending_video _ _]>) ?x) =>
      apply (keeps_pending_trans _ x);
      [keeps|apply keeps_pending_write; intros; cbn; eauto]
  | |- keeps_pending _ (set_user_data (<[_ := set_default_quality _ _]>) ?x) =>
      apply (keeps_pending_trans _ x);
      [keeps|apply keeps_pending_write; intros d Hd; exact Hd]
  | |- keeps_pending _ (call_effect ?c ?r ?x) =>
      apply (keeps_pending_trans _ x);
      [keeps|apply keeps_pending_same, user_data_call_effect]
  | |- keeps_pending _ (cleanup ?u ?fr ?x) =>
      apply (keeps_pending_trans _ x);
      [keeps|apply keeps_pending_same, user_data_cleanup]
  | |- keeps_pending _ (?f ?x) =>
      apply (keeps_pending_trans _ x);
      [keeps|apply keeps_pending_same; reflexivity]
  | |- keeps_pending _ (?f ?a ?x) =>
      apply (keeps_pending_trans _ x);
      [keeps|apply keeps_pending_same; reflexivity]
  end.

Ltac handler_unfold :=
  unfold start, help_command, settings_command, handle_settings_callback,
    cancel_command, handle_video, handle_compression_callback,
    process_compression, process_compression_body, process_compression_except,
    write_user_data.

Ltac run_to_suspension :=
  repeat run_step; run_cbn;
  rewrite ?cleanup_run_sync; cbn [run_sync store_of]; keeps.

Lemma bot_coroutine_first_step_keeps_pending m s :
  bot_coroutine m -> keeps_pending s (store_of (invoke m s)).
Proof.
  intros Hm. unfold invoke. destruct Hm; handler_unfold.
  all: run_to_suspension.
Qed.

Lemma bot_coroutine_step_keeps_pending m s :
  bot_coroutine m ->
  wp anything m step_keeps_pending (fun _ _ _ _ => True) s empty_frame [].
Proof.
  intros Hm. destruct Hm; handler_unfold.
  all: repeat wp_step
         ltac:(intros [?|?] ?; run_to_suspension)
         ltac:(exact I).
Qed.

Ltac same :=
  idtac;
  unfold same_user_data in *;
  repeat match goal with
         | H : context [user_data (call_effect _ _ _)] |- _ =>
             rewrite user_data_call_effect in H
         end;
  rewrite ?user_data_cleanup;
  cbn [user_data set_fs set_active_tasks add_log add_created_task] in *;
  congruence.

Lemma process_compression_same_user_data update user_id s :
  wp same_user_data (process_compression update user_id)
     (fun s' _ _ _ _ => user_data s' = user_data s)
     (fun s' _ _ _ => user_data s' = user_data s) s empty_frame [].
Proof.
  handler_unfold. repeat wp_step ltac:(same) ltac:(same).
Qed.

Lemma handle_compression_callback_creates update s v a mid :
  pending_video (user_data_of s (effective_user update)) = Some v ->
  let s' := handled (handle_compression_callback update) [Returned a; Returned mid] s in
  active_tasks s'
    = <[effective_user update := new_task update v mid (now s)]> (active_tasks s) /\
  user_data s' = user_data s /\
  fs s' = fs s /\
  created_tasks s' = created_tasks s ++ [(update, effective_user update)].
Proof.
  intros Hv. unfold handled, handle_compression_callback. handler_cbn.
  cbn [call_effect]. rewrite Hv. handler_cbn. cbn [call_effect].
  unfold_ops. handler_cbn. repeat split; reflexivity.
Qed.

Lemma store_of_wp_exec {A : Type} R (m : coro A) (Inv : store -> Prop) s env :
  wp R m (fun s' _ _ _ _ => Inv s') (fun s' _ _ _ => Inv s') s empty_frame [] ->
  respects R env ->
  Inv (store_of (exec (invoke m s) env)).
Proof.
  intros Hwp Henv. pose proof (wp_exec R m _ _ s empty_frame [] env Hwp Henv) as H.
  unfold invoke. destruct (exec _ env); exact H.
Qed.

(** C9.  The stored pending video is never cleared.  The first atomic
    step of every coroutine of the bot, and every later step from whatever
    store it resumes in, keeps every pending video that is stored (only
    [handle_video] writes the key, and it writes a video).  After a button
    press has started a job from the stored video, the reference is still
    there and the same; it is still there and the same after the whole
    pipeline has run, and a second press, with no new video sent, creates
    a job from that same video. *)
Theorem C9_pending_video_never_cleared :
  (forall m s,
     bot_coroutine m -> keeps_pending s (store_of (invoke m s))) /\
  (forall m s env c r others,
     bot_coroutine m ->
     awaiting (exec (invoke m s) env) = Some c ->
     keeps_pending
       (others (call_effect c r (store_of (exec (invoke m s) env))))
       (store_of (exec (invoke m s) (env ++ [(r, others)])))) /\
  (forall update s v a mid env a' mid',
     pending_video (user_data_of s (effective_user update)) = Some v ->
     respects same_user_data env ->
     let u := effective_user update in
     let s1 := handled (handle_compression_callback update) [Returned a; Returned mid] s in
     let s2 := store_of (exec (invoke (process_compression update u) s1) env) in
     let s3 := handled (handle_compression_callback update)
                 [Returned a'; Returned mid'] s2 in
     video_info <$> (active_tasks s1 !! u) = Some v /\
     pending_video (user_data_of s1 u) = Some v /\
     pending_video (user_data_of s2 u) = Some v /\
     video_info <$> (active_tasks s3 !! u) = Some v /\
     pending_video (user_data_of s3 u) = Some v).
Proof.
  split; [|split].
  - intros m s Hm. apply bot_coroutine_first_step_keeps_pending, Hm.
  - intros m s env c r others Hm Haw.
    pose proof (wp_exec anything m _ _ s empty_frame [] env
                  (bot_coroutine_step_keeps_pending m s Hm)
                  (respects_anything env)) as HP.
    fold (invoke m s) in HP. rewrite exec_app.
    destruct (exec (invoke m s) env) as [s1 fr1 trace1 c1 k1|]; [|discriminate Haw].
    cbn in Haw. injection Haw as ->.
    cbn [exec resume store_of]. apply HP.
  - intros update s v a mid env a' mid' Hv Henv u s1 s2 s3.
    destruct (handle_compression_callback_creates update s v a mid Hv)
      as (Ha1 & Hu1 & _).
    fold u s1 in Ha1, Hu1.
    assert (pending_video (user_data_of s1 u) = Some v) as Hv1.
    { unfold user_data_of. rewrite Hu1. exact Hv. }
    assert (user_data s2 = user_data s1) as Hu2.
    { apply (store_of_wp_exec same_user_data (process_compression update u)
               (fun s' => user_data s' = user_data s1)); [|exact Henv].
      apply process_compression_same_user_data. }
    assert (pending_video (user_data_of s2 u) = Some v) as Hv2.
    { unfold user_data_of. rewrite Hu2. exact Hv1. }
    destruct (handle_compression_callback_creates update s2 v a' mid' Hv2)
      as (Ha3 & Hu3 & _).
    fold u s3 in Ha3, Hu3.
    split; [rewrite Ha1, lookup_insert_eq; reflexivity|].
    split; [exact Hv1|]. split; [exact Hv2|].
    split; [rewrite Ha3, lookup_insert_eq; reflexivity|].
    unfold user_data_of. rewrite Hu3. exact Hv2.
Qed.

(** C5 (amended).  The two rejections of [handle_video] -- the user has
    an active task, or the file is larger than the limit -- are answered
    before anything is stored: the store is left exactly as it was.  There
    is no preset check on admission: a button press creates a registry
    entry whose quality is the callback data without its "compress_"
    prefix, whatever that is.  A key that is not in the preset table is
    found only inside the pipeline: such a run never calls the encoder and
    never delivers, and it ends with the entry and its files removed. *)
Theorem C5_admission_checks :
  (forall update s replies,
     is_Some (active_tasks s !! effective_user update) ->
     awaiting (invoke (handle_video update) s)
       = Some (reply_text (effective_chat update) AlreadyActive) /\
     handled (handle_video update) replies s = s) /\
  (forall update s video replies,
     active_tasks s !! effective_user update = None ->
     or_else (message_video update) (message_document update) = Some video ->
     size_limit_of s update < file_size video ->
     awaiting (invoke (handle_video update) s)
       = Some (reply_text (effective_chat update)
                 (TooLarge (size_limit_of s update)
                    (default false
                       (is_premium (user_data_of s (effective_user update)))))) /\
     handled (handle_video update) replies s = s) /\
  (forall update s v a mid,
     pending_video (user_data_of s (effective_user update)) = Some v ->
     active_tasks
       (handled (handle_compression_callback update) [Returned a; Returned mid] s)
       !! effective_user update
     = Some (new_task update v mid (now s))) /\
  (forall update user_id s t env,
     active_tasks s !! user_id = Some t ->
     COMPRESSION_PRESETS !! quality t = None ->
     let cfg := exec (invoke (process_compression update user_id) s) env in
     encoded (trace_of cfg) = false /\
     delivered (trace_of cfg) = false /\
     at_end (cleaned_up user_id) cfg).
Proof.
  split; [|split; [|split]].
  - intros update s replies. apply handle_video_AlreadyActive.
  - intros update s video replies. apply handle_video_TooLarge.
  - intros update s v a mid Hv.
    destruct (handle_compression_callback_creates update s v a mid Hv) as (-> & _).
    apply lookup_insert_eq.
  - intros update user_id s t env Ht Hq cfg.
    pose proof (wp_exec anything _ _ _ s empty_frame [] env
                  (process_compression_unknown_preset update user_id s t Ht Hq)
                  (respects_anything env)) as H.
    fold (invoke (process_compression update user_id) s) in H. fold cfg in H.
    destruct cfg; cbn [trace_of at_end]; tauto.
Qed.

(** C1 (the code departs from the claim).  Single-flight admission says
    that a second submission made while the user's first job is still
    running is rejected as already active and leaves the first job's entry
    alone.  [handle_video] has that guard, [handle_compression_callback]
    has none.  On the sample session -- two videos sent, then "Low"
    pressed on the first prompt and "High" on the second while the first
    job is still waiting for its "Downloading" status -- the second press
    is not rejected: it posts "Starting ... High", replaces the entry of
    the running job (quality and status message id change, the flag is
    reset) and hands a second pipeline for the same user to the event
    loop. *)
Theorem C1_second_press_replaces_active_job :
  active_tasks first_job_admitted !! 7
    = Some (new_task (button_update "compress_low")
              (pending_video_of (sample_video "b.mp4" 2000) 0) 11 0) /\
  awaiting first_job_downloading
    = Some (edit_message_text (Downloading 2000 "Low") 70 11) /\
  trace_of second_press
    = [query_answer; query_edit_message_text (Starting "High" 2000)] /\
  finished second_press = true /\
  active_tasks (store_of second_press) !! 7
    = Some (new_task (button_update "compress_high")
              (pending_video_of (sample_video "b.mp4" 2000) 0) 12 0) /\
  created_tasks (store_of second_press)
    = [(button_update "compress_low", 7); (button_update "compress_high", 7)].
Proof.
  vm_compute. repeat split; reflexivity.
Qed.

(** ** The theorems at work on the sample session *)

Lemma respects_alone (R : store -> store -> Prop) replies :
  (forall s, R s s) -> respects R (alone replies).
Proof.
  intros HR. unfold respects, alone.
  induction replies as [|r replies IH]; cbn [map]; constructor; auto.
Qed.

Lemma C2_witness :
  exists s' fr' trace' r,
    sample_run "compress_low"
      (up_to_encode ++ alone [Raised (FfmpegError "no space left"); ok; ok; ok; ok])
      = Finished s' fr' trace' r /\
    cleaned_up 7 s' fr' trace' r.
Proof.
  apply (C2_terminal_cleanup (button_update "compress_low") 7
           (job_admitted "compress_low")).
  vm_compute. lia.
Defined.

Lemma C3_witness :
  encoded (trace_of (sample_run "compress_low"
                       (alone [ok; ok] ++ (Returned 1000, cancel_arrives) :: alone [ok])))
    = false /\
  delivered (trace_of (sample_run "compress_low"
                         (alone [ok; ok] ++ (Returned 1000, cancel_arrives) :: alone [ok])))
    = false /\
  at_end (cleaned_up 7)
    (sample_run "compress_low"
       (alone [ok; ok] ++ (Returned 1000, cancel_arrives) :: alone [ok])).
Proof.
  refine (proj2 (proj2 (C3_cancel_honoured_after_download
                          (button_update "compress_low") 7
                          (job_admitted "compress_low")
                          (new_task (button_update "compress_low")
                             (pending_video_of (sample_video "a.mp4" 1000) 0) 11 0)
                          _)
                   (alone [ok; ok]) "file-a.mp4" sample_input_path 1000
                   cancel_arrives (alone [ok]) _ _));
    vm_compute; reflexivity.
Defined.

Lemma C4_witness :
  trace_of (sample_run "compress_low"
              (alone [ok; ok; Returned 1000]
               ++ undisturbed (Raised (TelegramError "timed out")) :: alone [ok]))
  = trace_of (sample_run "compress_low" (alone [ok; ok; Returned 1000]))
    ++ [edit_message_text (ErrorOccurred (TelegramError "timed out")) 70 11] /\
  at_end (cleaned_up 7)
    (sample_run "compress_low"
       (alone [ok; ok; Returned 1000]
        ++ undisturbed (Raised (TelegramError "timed out")) :: alone [ok])).
Proof.
  refine (proj1 (C4_report_failure_aborts (button_update "compress_low") 7
                   (job_admitted "compress_low"))
            (alone [ok; ok; Returned 1000])
            (Compressing "Low" "Small file size, lower quality") 70 11
            (TelegramError "timed out") (fun s => s) (alone [ok]) _ _);
    vm_compute; reflexivity.
Defined.

Lemma C5_witness :
  encoded (trace_of (sample_run "compress_ultra" (alone [ok; ok; Returned 1000; ok])))
    = false /\
  delivered (trace_of (sample_run "compress_ultra" (alone [ok; ok; Returned 1000; ok])))
    = false /\
  at_end (cleaned_up 7) (sample_run "compress_ultra" (alone [ok; ok; Returned 1000; ok])).
Proof.
  refine (proj2 (proj2 (proj2 C5_admission_checks))
            (button_update "compress_ultra") 7 (job_admitted "compress_ultra")
            (new_task (button_update "compress_ultra")
               (pending_video_of (sample_video "a.mp4" 1000) 0) 11 0)
            (alone [ok; ok; Returned 1000; ok]) _ _);
    vm_compute; reflexivity.
Defined.

Lemma C6_witness :
  (exists c,
     awaiting (sample_run "compress_low" (up_to_encode ++ [(Returned 400, cancel_arrives)]))
       = Some c /\
     is_status is_CompressionCanceled c = true) /\
  fs (store_of (sample_run "compress_low"
                  (up_to_encode ++ [(Returned 400, cancel_arrives)])))
    !! sample_input_path = None /\
  fs (store_of (sample_run "compress_low"
                  (up_to_encode ++ [(Returned 400, cancel_arrives)])))
    !! sample_output_path = None /\
  canceled_not_delivered
    (trace_of (sample_run "compress_low"
                 (up_to_encode ++ (Returned 400, cancel_arrives) :: alone [ok]))) /\
  at_end (cleaned_up 7)
    (sample_run "compress_low"
       (up_to_encode ++ (Returned 400, cancel_arrives) :: alone [ok])).
Proof.
  apply (C6_cancel_during_encode (button_update "compress_low") 7
           (job_admitted "compress_low") up_to_encode
           sample_input_path sample_output_path 28 "veryfast" 400
           cancel_arrives (alone [ok]));
    vm_compute; reflexivity.
Defined.

Lemma C7_witness :
  awaiting (invoke (handle_video (video_update (sample_video "big.mp4" (60 * 1024 * 1024))))
              empty_store)
    = Some (reply_text 70 (TooLarge (50 * 1024 * 1024) false)) /\
  forall replies,
    handled (handle_video (video_update (sample_video "big.mp4" (60 * 1024 * 1024))))
      replies empty_store = empty_store.
Proof.
  refine (proj1 (proj2 (proj2 (C7_size_gate
                                 (video_update (sample_video "big.mp4" (60 * 1024 * 1024)))
                                 empty_store
                                 (sample_video "big.mp4" (60 * 1024 * 1024)) _ _))) _);
    vm_compute; reflexivity.
Defined.

Lemma C8_witness :
  exists q : Q,
    size_reduction 1500 1000 = Ret q /\
    (q == 100 - (inject_Z 1500 / inject_Z 1000) * 100)%Q /\
    (1000 < 1500 -> (q < 0)%Q).
Proof.
  apply (C8_size_reduction 1500 1000). lia.
Defined.

Lemma C9_witness :
  video_info <$> (active_tasks (job_admitted "compress_low") !! 7)
    = Some (pending_video_of (sample_video "a.mp4" 1000) 0) /\
  pending_video (user_data_of (job_admitted "compress_low") 7)
    = Some (pending_video_of (sample_video "a.mp4" 1000) 0) /\
  pending_video
    (user_data_of
       (store_of (sample_run "compress_low"
                    (alone [ok; ok; Returned 1000; ok; Returned 400; ok; ok; ok]))) 7)
    = Some (pending_video_of (sample_video "a.mp4" 1000) 0) /\
  video_info <$>
    (active_tasks
       (handled (handle_compression_callback (button_update "compress_low"))
          [ok; Returned 12]
          (store_of (sample_run "compress_low"
                       (alone [ok; ok; Returned 1000; ok; Returned 400; ok; ok; ok]))))
     !! 7)
    = Some (pending_video_of (sample_video "a.mp4" 1000) 0) /\
  pending_video
    (user_data_of
       (handled (handle_compression_callback (button_update "compress_low"))
          [ok; Returned 12]
          (store_of (sample_run "compress_low"
                       (alone [ok; ok; Returned 1000; ok; Returned 400; ok; ok; ok])))) 7)
    = Some (pending_video_of (sample_video "a.mp4" 1000) 0).
Proof.
  refine (proj2 (proj2 C9_pending_video_never_cleared)
            (button_update "compress_low") video_received
            (pending_video_of (sample_video "a.mp4" 1000) 0) 0 11
            (alone [ok; ok; Returned 1000; ok; Returned 400; ok; ok; ok]) 0 12 _ _).
  - vm_compute; reflexivity.
  - apply respects_alone. intros s. reflexivity.
Defined.

Lemma C10_witness :
  awaiting (invoke (settings_command (video_update (sample_video "a.mp4" 1000)))
              empty_store)
    = Some (reply_text 70 (SETTINGS_MESSAGE "Medium")) /\
  awaiting (invoke (handle_video (video_update (sample_video "a.mp4" 1000)))
              empty_store)
    = Some (reply_text 70 (VideoReceived 1000 "Medium")).
Proof.
  assert (default_quality (user_data_of empty_store 7) = None) as Hnone
    by (vm_compute; reflexivity).
  split.
  - exact (proj1 (C10_default_quality_fallback
                    (video_update (sample_video "a.mp4" 1000)) empty_store Hnone)).
  - apply (proj2 (C10_default_quality_fallback
                    (video_update (sample_video "a.mp4" 1000)) empty_store Hnone)
             (sample_video "a.mp4" 1000)).
    + vm_compute; reflexivity.
    + vm_compute; reflexivity.
    + vm_compute; discriminate.
Defined.

(** ** Where the code departs from the specification *)

Lemma C3_download_despite_cancel :
  let canceled_first := cancel_arrives (job_admitted "compress_low") in
  let run :=
    exec (invoke (process_compression (button_update "compress_low") 7) canceled_first)
         (alone [ok; ok; Returned 1000; ok]) in
  cancel_requested canceled_first 7 = true /\
  cancel_requested
    (store_of (sample_run "compress_low" [(ok, cancel_arrives)])) 7 = true /\
  awaiting (sample_run "compress_low" [(ok, cancel_arrives)])
    = Some (get_file "file-a.mp4") /\
  fetched (trace_of run) = true /\
  trace_of run
    = [edit_message_text (Downloading 1000 "Low") 70 11;
       get_file "file-a.mp4";
       download_to_drive "file-a.mp4" sample_input_path;
       edit_message_text CompressionCanceled 70 11].
Proof.
  vm_compute. repeat split; reflexivity.
Qed.

Lemma C4_report_failure_ends_job :
  let failing :=
    sample_run "compress_low" (alone [Raised (TelegramError "timed out"); ok]) in
  let passing :=
    sample_run "compress_low"
      (alone [ok; ok; Returned 1000; ok; Returned 400; ok; ok; ok]) in
  trace_of failing
    = [edit_message_text (Downloading 1000 "Low") 70 11;
       edit_message_text (ErrorOccurred (TelegramError "timed out")) 70 11] /\
  finished failing = true /\
  fetched (trace_of failing) = false /\
  encoded (trace_of failing) = false /\
  delivered (trace_of failing) = false /\
  finished passing = true /\
  delivered (trace_of passing) = true.
Proof.
  vm_compute. repeat split; reflexivity.
Qed.

Lemma C5_unknown_preset_admitted :
  COMPRESSION_PRESETS !! "ultra" = None /\
  trace_of (exec (invoke (handle_compression_callback (button_update "compress_ultra"))
                    video_received) (alone [ok; Returned 11]))
    = [query_answer; query_edit_message_text (Starting "Ultra" 1000)] /\
  active_tasks (job_admitted "compress_ultra") !! 7
    = Some (new_task (button_update "compress_ultra")
              (pending_video_of (sample_video "a.mp4" 1000) 0) 11 0) /\
  quality (new_task (button_update "compress_ultra")
             (pending_video_of (sample_video "a.mp4" 1000) 0) 11 0) = "ultra" /\
  created_tasks (job_admitted "compress_ultra")
    = [(button_update "compress_ultra", 7)] /\
  trace_of (sample_run "compress_ultra" (alone [ok; ok; Returned 1000; ok]))
    = [edit_message_text (Downloading 1000 "Ultra") 70 11;
       get_file "file-a.mp4";
       download_to_drive "file-a.mp4" sample_input_path;
       edit_message_text (ErrorOccurred (KeyError "ultra")) 70 11].
Proof.
  vm_compute. repeat split; reflexivity.
Qed.

(** * Further properties of the handlers and of the pipeline *)

(** ** Handlers *)

Ltac finish_handler :=
  handler_cbn; cbn [call_effect]; rewrite ?exec_Finished; handler_cbn.

(** X1.  [/cancel] from a user with no active task answers "no active
    compression tasks" and changes nothing, whatever the reply does. *)
Theorem cancel_command_without_task update s replies :
  active_tasks s !! effective_user update = None ->
  awaiting (invoke (cancel_command update) s)
    = Some (reply_text (effective_chat update) NothingToCancel) /\
  handled (cancel_command update) replies s = s.
Proof.
  intros Hnone. unfold handled, cancel_command. handler_cbn. rewrite Hnone.
  handler_cbn. split; [reflexivity|].
  destruct replies as [|[v|e] replies]; finish_handler; reflexivity.
Qed.

(** X2.  [/cancel] from a user with an active task sets the [canceled]
    flag of that entry and changes nothing else: no other field of the
    entry, no other entry, no file, no user data.  The flag is set before
    the acknowledgement is sent, so it is set even when that reply fails,
    and a second [/cancel] changes nothing more. *)
Theorem cancel_command_sets_flag update s t replies :
  active_tasks s !! effective_user update = Some t ->
  awaiting (invoke (cancel_command update) s)
    = Some (reply_text (effective_chat update) Canceling) /\
  handled (cancel_command update) replies s
    = set_active_tasks (<[effective_user update := set_canceled t]>) s /\
  cancel_requested (handled (cancel_command update) replies s)
    (effective_user update) = true /\
  handled (cancel_command update) replies
    (handled (cancel_command update) replies s)
    = handled (cancel_command update) replies s.
Proof.
  intros Ht.
  assert (forall s0 t0 rs, active_tasks s0 !! effective_user update = Some t0 ->
            handled (cancel_command update) rs s0
            = set_active_tasks (<[effective_user update := set_canceled t0]>) s0) as Hset.
  { intros s0 t0 rs H0. unfold handled, cancel_command. handler_cbn. rewrite H0.
    unfold_ops. handler_cbn.
    destruct rs as [|[v|e] rs]; finish_handler; reflexivity. }
  split.
  - unfold cancel_command. handler_cbn. rewrite Ht. unfold_ops. handler_cbn. reflexivity.
  - rewrite (Hset s t replies Ht). split; [reflexivity|]. split.
    + unfold cancel_requested. cbn [active_tasks set_active_tasks].
      rewrite lookup_insert_eq. reflexivity.
    + rewrite (Hset _ (set_canceled t) replies)
        by (cbn [active_tasks set_active_tasks]; apply lookup_insert_eq).
      destruct s. unfold set_active_tasks. cbn. f_equal.
      rewrite insert_insert_eq. reflexivity.
Qed.

(** X3.  Choosing a default and reading it back: after a settings button
    press has been handled, the settings message of the same user shows
    the chosen quality; the press writes only that user's default quality
    (the pending video and premium flag of the user, the data of other
    users, the registry and the files are untouched). *)
Theorem default_quality_round_trip update update' s a b :
  effective_user update' = effective_user update ->
  let chosen := remove_all "set_default_" (query_data update) in
  let s' := handled (handle_settings_callback update) [Returned a; Returned b] s in
  awaiting (invoke (settings_command update') s')
    = Some (reply_text (effective_chat update')
              (SETTINGS_MESSAGE (capitalize chosen))) /\
  user_data_of s' (effective_user update)
    = set_default_quality chosen (user_data_of s (effective_user update)) /\
  (forall u, u <> effective_user update -> user_data s' !! u = user_data s !! u) /\
  active_tasks s' = active_tasks s /\
  fs s' = fs s.
Proof.
  intros Hu chosen s'. subst s' chosen.
  unfold handled, handle_settings_callback. unfold_ops. handler_cbn.
  cbn [call_effect]. handler_cbn.
  split.
  - unfold settings_command. unfold_ops. handler_cbn. rewrite Hu.
    unfold user_data_of at 1. cbn [user_data set_user_data].
    rewrite lookup_insert_eq. reflexivity.
  - split.
    + unfold user_data_of at 1. cbn [user_data set_user_data].
      rewrite lookup_insert_eq. reflexivity.
    + split; [|split; reflexivity].
      intros u Hne. cbn [user_data set_user_data].
      apply lookup_insert_ne. congruence.
Qed.

(** X4.  The default quality is saved between the two calls of the
    settings button handler: when answering the callback query fails,
    nothing is saved; when only the confirmation edit fails, the choice is
    saved all the same. *)
Theorem default_quality_saved_before_confirmation update s :
  (forall e replies,
     handled (handle_settings_callback update) (Raised e :: replies) s = s) /\
  (forall a e replies,
     default_quality
       (user_data_of
          (handled (handle_settings_callback update)
             (Returned a :: Raised e :: replies) s)
          (effective_user update))
     = Some (remove_all "set_default_" (query_data update))).
Proof.
  split.
  - intros e replies. unfold handled, handle_settings_callback. unfold_ops.
    finish_handler. reflexivity.
  - intros a e replies. unfold handled, handle_settings_callback. unfold_ops.
    finish_handler. finish_handler.
    unfold user_data_of. cbn [user_data set_user_data].
    rewrite lookup_insert_eq. reflexivity.
Qed.

(** X5.  An update that carries neither a video nor a document is
    answered "no video detected" and changes nothing. *)
Theorem handle_video_without_video update s replies :
  active_tasks s !! effective_user update = None ->
  message_video update = None ->
  message_document update = None ->
  awaiting (invoke (handle_video update) s)
    = Some (reply_text (effective_chat update) NoVideoDetected) /\
  handled (handle_video update) replies s = s.
Proof.
  intros Hact Hv Hd. unfold handled, handle_video. unfold_ops. handler_cbn.
  rewrite Hact, Hv, Hd. cbn [or_else].
  rewrite bool_decide_eq_false_2 by (intros [? ?]; discriminate).
  handler_cbn. split; [reflexivity|].
  destruct replies as [|[v|e] replies]; finish_handler; reflexivity.
Qed.

(** X6.  An accepted video replaces the pending video of its sender,
    and only that: the sender's other settings, the data of other users,
    the registry and the files are untouched, and no pipeline is created.
    The video is stored after the quality prompt has been sent: when the
    prompt fails, nothing is stored. *)
Theorem handle_video_stores_latest update s video :
  active_tasks s !! effective_user update = None ->
  or_else (message_video update) (message_document update) = Some video ->
  file_size video <= size_limit_of s update ->
  (forall e replies, handled (handle_video update) (Raised e :: replies) s = s) /\
  (forall v replies,
     let s' := handled (handle_video update) (Returned v :: replies) s in
     user_data_of s' (effective_user update)
       = set_pending_video (pending_video_of video (now s))
           (user_data_of s (effective_user update)) /\
     (forall u, u <> effective_user update -> user_data s' !! u = user_data s !! u) /\
     active_tasks s' = active_tasks s /\
     fs s' = fs s /\
     created_tasks s' = created_tasks s).
Proof.
  intros Hact Hvid Hsize. unfold handled, handle_video, size_limit_of in *.
  unfold_ops. handler_cbn. rewrite Hact, Hvid.
  rewrite bool_decide_eq_false_2 by (intros [? ?]; discriminate). handler_cbn.
  apply Z.ltb_ge in Hsize. rewrite Hsize. handler_cbn. split.
  - intros e replies. finish_handler. reflexivity.
  - intros v replies. finish_handler. split.
    + unfold user_data_of at 1. cbn [user_data set_user_data].
      rewrite lookup_insert_eq. reflexivity.
    + split; [|repeat split; reflexivity].
      intros u Hne. cbn [user_data set_user_data].
      apply lookup_insert_ne. congruence.
Qed.

(** X7.  A quality button pressed by a user who has no pending video is
    answered "no pending video" and registers nothing: the store is left
    as it was, whatever the replies are. *)
Theorem handle_compression_callback_without_video update s replies :
  pending_video (user_data_of s (effective_user update)) = None ->
  handled (handle_compression_callback update) replies s = s /\
  (forall a, awaiting (exec (invoke (handle_compression_callback update) s)
                         (alone [Returned a]))
             = Some (query_edit_message_text NoPendingVideo)).
Proof.
  intros Hnone. unfold handled, handle_compression_callback. unfold_ops.
  handler_cbn. split.
  - destruct replies as [|[a|e] replies]; finish_handler; try reflexivity.
    rewrite Hnone. handler_cbn.
    destruct replies as [|[b|e] replies]; finish_handler; reflexivity.
  - intros a. finish_handler. rewrite Hnone. reflexivity.
Qed.

(** X8.  A job is registered only after its status message has been
    posted: when answering the callback query fails, or when posting the
    "Starting compression" message fails, the store is left as it was (no
    entry, no pipeline), and it is still unchanged while that message is
    awaited. *)
Theorem job_registered_after_status_posted update s :
  (forall e replies,
     handled (handle_compression_callback update) (Raised e :: replies) s = s) /\
  (forall a e replies,
     handled (handle_compression_callback update)
       (Returned a :: Raised e :: replies) s = s) /\
  (forall a,
     handled (handle_compression_callback update) [Returned a] s = s).
Proof.
  unfold handled, handle_compression_callback. unfold_ops. handler_cbn.
  split; [|split].
  - intros e replies. finish_handler. reflexivity.
  - intros a e replies. finish_handler.
    destruct (pending_video _); finish_handler; finish_handler; reflexivity.
  - intros a. finish_handler.
    destruct (pending_video _); finish_handler; reflexivity.
Qed.

(** ** The pipeline *)

Lemma input_output_differ dir a b :
  path_join dir ("input_" +:+ a) <> path_join dir ("output_" +:+ b).
Proof.
  unfold path_join. intros H. apply String.app_inj in H. cbn in H. discriminate H.
Qed.

Ltac paths_differ Hin :=
  cbn [In] in Hin;
  repeat match type of Hin with
         | _ \/ _ => destruct Hin as [Hin|Hin]
         | False => contradiction
         | _ = _ => first [ discriminate Hin
                          | injection Hin as <- <- <- <-; apply input_output_differ ]
         end.

Lemma process_compression_paths_differ update user_id s :
  wp anything (process_compression update user_id)
     (fun _ _ trace _ _ =>
        forall i o c q, In (ffmpeg_run i o c q) trace -> i <> o)
     (fun _ _ trace _ =>
        forall i o c q, In (ffmpeg_run i o c q) trace -> i <> o)
     s empty_frame [].
Proof.
  unfold process_compression, process_compression_body, process_compression_except.
  repeat wp_step
    ltac:(intros ? ? ? ? Hin; paths_differ Hin)
    ltac:(intros ? ? ? ? Hin; paths_differ Hin).
Qed.

(** X9.  In every run of the pipeline, whatever happens, the encoder is
    given an output path different from its input path. *)
Theorem encoder_never_overwrites_its_input update user_id s env i o c q :
  In (ffmpeg_run i o c q)
     (trace_of (exec (invoke (process_compression update user_id) s) env)) ->
  i <> o.
Proof.
  pose proof (wp_exec anything _ _ _ s empty_frame [] env
                (process_compression_paths_differ update user_id s)
                (respects_anything env)) as H.
  fold (invoke (process_compression update user_id) s) in H.
  destruct (exec _ env); cbn [trace_of]; apply H.
Qed.



(** X13.  A pipeline started for a user who has no registry entry makes
    no call at all, not even a failure notice (its message id is not
    bound yet): it ends at once, having only logged the [KeyError] and the
    failure of the file cleanup. *)
Theorem pipeline_without_entry update user_id s :
  active_tasks s !! user_id = None ->
  invoke (process_compression update user_id) s
    = Finished
        (add_log (ErrorCleaningUp (UnboundLocalError "input_path"))
           (add_log (ErrorDuringCompression (KeyError (pretty user_id))) s))
        empty_frame [] (inr tt).
Proof.
  intros Hnone.
  unfold invoke, process_compression, process_compression_body,
    process_compression_except, process_compression_finally.
  run_cbn. rewrite Hnone. run_cbn. cbn [active_tasks add_log]. rewrite Hnone.
  rewrite bool_decide_eq_false_2 by (intros [? ?]; discriminate).
  reflexivity.
Qed.

(** *** The [finally] block, field by field *)

Lemma remove_existing_fs p s : fs (remove_existing p s) = delete p (fs s).
Proof.
  unfold remove_existing. destruct (os_path_exists s p) eqn:E; [reflexivity|].
  apply os_path_exists_false in E. symmetry. apply delete_id, E.
Qed.

Lemma active_tasks_cleanup_files fr s :
  active_tasks (cleanup_files fr s) = active_tasks s.
Proof.
  unfold cleanup_files. destruct (l_input_path fr), (l_output_path fr);
    rewrite ?active_tasks_remove_existing; reflexivity.
Qed.

Lemma active_tasks_cleanup user_id fr s :
  active_tasks (cleanup user_id fr s) = delete user_id (active_tasks s).
Proof.
  unfold cleanup. case_bool_decide as H; cbn [active_tasks set_active_tasks];
    rewrite active_tasks_cleanup_files in *; [reflexivity|].
  symmetry. apply delete_id.
  destruct (active_tasks s !! user_id); [exfalso; apply H; eauto|reflexivity].
Qed.

Lemma created_tasks_remove_existing p s :
  created_tasks (remove_existing p s) = created_tasks s.
Proof. unfold remove_existing. destruct (os_path_exists s p); reflexivity. Qed.

Lemma created_tasks_cleanup user_id fr s :
  created_tasks (cleanup user_id fr s) = created_tasks s.
Proof.
  unfold cleanup, cleanup_files.
  destruct (l_input_path fr), (l_output_path fr); case_bool_decide; cbn;
    rewrite ?created_tasks_remove_existing; reflexivity.
Qed.

Lemma log_remove_existing p s : log (remove_existing p s) = log s.
Proof. unfold remove_existing. destruct (os_path_exists s p); reflexivity. Qed.

Lemma fs_cleanup_bound user_id fr s i o :
  l_input_path fr = Some i -> l_output_path fr = Some o ->
  fs (cleanup user_id fr s) = delete o (delete i (fs s)) /\
  log (cleanup user_id fr s) = log s.
Proof.
  intros Hi Ho. unfold cleanup, cleanup_files. rewrite Hi, Ho.
  case_bool_decide; cbn [fs log set_active_tasks];
    rewrite !remove_existing_fs, !log_remove_existing; auto.
Qed.

Lemma fs_cleanup_unbound user_id fr s :
  l_input_path fr = None \/ l_output_path fr = None ->
  fs (cleanup user_id fr s) = fs s.
Proof.
  intros H. unfold cleanup, cleanup_files.
  destruct (l_input_path fr), (l_output_path fr); case_bool_decide;
    try reflexivity; destruct H; discriminate.
Qed.

Lemma os_path_exists_insert p v s :
  os_path_exists (set_fs (<[p := v]>) s) p = true.
Proof.
  apply os_path_exists_true. cbn [fs set_fs]. rewrite lookup_insert_eq. eauto.
Qed.

Ltac sequential :=
  repeat (run_cbn;
          cbn [exec alone map resume call_effect active_tasks set_fs now fs];
          rewrite ?lookup_insert_eq, ?os_path_exists_insert;
          repeat match goal with
                 | H : _ = _ |- _ => rewrite H
                 end).

(** X11.  A run in which every call succeeds, for a registered job that
    is not canceled, has a known preset and a non-zero original size, and
    with nothing else interleaved: it makes exactly the eight calls of the
    pipeline in order (the encoder is given the parameters of the preset,
    the video sent is the encoder's output, and the sizes and the
    reduction shown are those of that output), and it ends with the user's
    entry removed, both scratch files deleted and everything else as it
    was. *)
Theorem successful_run update user_id s t p a1 a2 n_in a3 n_out a4 a5 a6 :
  active_tasks s !! user_id = Some t ->
  canceled t = false ->
  COMPRESSION_PRESETS !! quality t = Some p ->
  vi_file_size (video_info t) <> 0 ->
  let v := video_info t in
  let chat := effective_chat update in
  let mid := status_message_id t in
  let shown := capitalize (quality t) in
  let i := path_join TEMP_DOWNLOAD_DIR
             ("input_" +:+ pretty user_id +:+ "_" +:+ pretty (now s) +:+ "_"
              +:+ vi_file_name v) in
  let o := path_join TEMP_DOWNLOAD_DIR
             ("output_" +:+ pretty user_id +:+ "_" +:+ pretty (now s) +:+ "_"
              +:+ vi_file_name v) in
  let reduction := (100 - (inject_Z n_out / inject_Z (vi_file_size v)) * 100)%Q in
  let cfg :=
    exec (invoke (process_compression update user_id) s)
         (alone [Returned a1; Returned a2; Returned n_in; Returned a3;
                 Returned n_out; Returned a4; Returned a5; Returned a6]) in
  trace_of cfg
    = [edit_message_text (Downloading (vi_file_size v) shown) chat mid;
       get_file (vi_file_id v);
       download_to_drive (vi_file_id v) i;
       edit_message_text (Compressing shown (description p)) chat mid;
       ffmpeg_run i o (crf p) (preset p);
       edit_message_text (Uploading (vi_file_size v) n_out reduction) chat mid;
       send_video chat o (Caption shown (vi_file_size v) n_out reduction)
         ("compressed_" +:+ vi_file_name v);
       edit_message_text (Completed shown (vi_file_size v) n_out reduction) chat mid] /\
  finished cfg = true /\
  active_tasks (store_of cfg) = delete user_id (active_tasks s) /\
  fs (store_of cfg) = delete o (delete i (fs s)) /\
  user_data (store_of cfg) = user_data s /\
  log (store_of cfg) = log s /\
  created_tasks (store_of cfg) = created_tasks s.
Proof.
  intros Ht Hc Hp Hsize v chat mid shown i o reduction cfg.
  apply Z.eqb_neq in Hsize.
  subst cfg v chat mid shown i o reduction.
  unfold invoke, process_compression, process_compression_body,
    process_compression_except.
  sequential.
  rewrite cleanup_run_sync. cbn [run_sync trace_of finished store_of].
  split; [reflexivity|]. split; [reflexivity|].
  rewrite active_tasks_cleanup, user_data_cleanup, created_tasks_cleanup.
  edestruct fs_cleanup_bound as [-> ->]; [reflexivity|reflexivity|].
  cbn [active_tasks fs user_data log created_tasks set_fs].
  repeat split; try reflexivity.
  apply map_eq. intros path.
  rewrite !lookup_delete. repeat case_decide; try reflexivity.
  rewrite !lookup_insert_ne by congruence. reflexivity.
Qed.

(** X12.  A video whose declared size is zero is downloaded and encoded,
    and then the size-reduction division fails: the last call is the
    failure notice for [ZeroDivisionError], the encoded video is never
    delivered, and the entry is removed. *)
Theorem zero_size_video_is_encoded_but_not_delivered
    update user_id s t p a1 a2 n_in a3 n_out a4 :
  active_tasks s !! user_id = Some t ->
  canceled t = false ->
  COMPRESSION_PRESETS !! quality t = Some p ->
  vi_file_size (video_info t) = 0 ->
  let cfg :=
    exec (invoke (process_compression update user_id) s)
         (alone [Returned a1; Returned a2; Returned n_in; Returned a3;
                 Returned n_out; Returned a4]) in
  encoded (trace_of cfg) = true /\
  last (trace_of cfg)
    = Some (edit_message_text (ErrorOccurred ZeroDivisionError)
              (effective_chat update) (status_message_id t)) /\
  delivered (trace_of cfg) = false /\
  finished cfg = true /\
  active_tasks (store_of cfg) !! user_id = None.
Proof.
  intros Ht Hc Hp Hsize cfg. subst cfg.
  unfold invoke, process_compression, process_compression_body,
    process_compression_except.
  sequential. cbn [Z.eqb]. sequential. cbn [l_status_message_id]. sequential.
  rewrite cleanup_run_sync. cbn [run_sync trace_of finished store_of].
  rewrite active_tasks_cleanup, lookup_delete_eq.
  repeat split; reflexivity.
Qed.

(** ** What a step may change *)

Lemma every_step_intro (G : store -> frame -> store -> Prop) m :
  (forall s, G s (frame_of (invoke m s)) (store_of (invoke m s))) ->
  (forall s, wp anything m (next_step G) (fun _ _ _ _ => True) s empty_frame []) ->
  every_step G m.
Proof.
  intros Hfirst Hnext. split; [exact Hfirst|].
  intros s env c r others Haw.
  pose proof (wp_exec anything m _ _ s empty_frame [] env (Hnext s)
                (respects_anything env)) as HP.
  fold (invoke m s) in HP. rewrite exec_app.
  destruct (exec (invoke m s) env) as [s1 fr1 trace1 c1 k1|]; [|discriminate Haw].
  cbn in Haw. injection Haw as ->.
  cbn [exec resume store_of]. apply HP.
Qed.

Ltac to_suspension solver :=
  repeat run_step; run_cbn;
  rewrite ?cleanup_run_sync; cbn [run_sync store_of frame_of]; solver.

Ltac steps solver :=
  apply every_step_intro;
  [ intros ?s; unfold invoke; handler_unfold; to_suspension solver
  | intros ?s; handler_unfold;
    repeat wp_step ltac:(intros [?|?] ?; to_suspension solver) ltac:(exact I) ].

Ltac store_fields :=
  rewrite ?active_tasks_cleanup, ?user_data_cleanup, ?created_tasks_cleanup;
  cbn [active_tasks user_data fs created_tasks log
       set_active_tasks set_user_data set_fs add_log add_created_task].

Ltac map_lookups :=
  repeat first [rewrite lookup_delete | rewrite lookup_insert];
  repeat case_decide; subst;
  first [reflexivity | assumption | congruence].

Ltac admits_nothing_step :=
  idtac; unfold admits_nothing; store_fields;
  split; [intros ?u ?Hu; map_lookups | reflexivity].

(** X14.  Only a quality button press registers a job: no step of any
    other coroutine of the bot adds a registry entry or creates a
    pipeline. *)
Theorem only_a_button_press_admits m :
  bot_coroutine m ->
  (forall update, m <> handle_compression_callback update) ->
  every_step admits_nothing m.
Proof.
  intros Hm Hne.
  destruct Hm; try (exfalso; eapply Hne; reflexivity);
    steps admits_nothing_step.
Qed.

Ltac leaves_others_step :=
  idtac; unfold leaves_others; store_fields;
  intros ?u ?Hu;
  split; rewrite ?lookup_delete_ne, ?lookup_insert_ne by congruence; reflexivity.

(** X15.  Users are isolated: no step of a coroutine that works for one
    user changes the registry entry or the user data of another user. *)
Theorem users_are_isolated user_id m :
  acts_for user_id m -> every_step (leaves_others user_id) m.
Proof.
  intros Hm. destruct Hm; steps leaves_others_step.
Qed.

Ltac leaves_files_step := idtac; unfold leaves_files; store_fields; reflexivity.

(** X16.  No step of a handler touches the scratch directory. *)
Theorem handlers_leave_files m : handler m -> every_step leaves_files m.
Proof.
  intros Hm. destruct Hm; steps leaves_files_step.
Qed.

Ltac user_data_step :=
  idtac; intros ?u; unfold user_data_of; store_fields;
  try (rewrite lookup_insert; case_decide; subst; cbn); reflexivity.

(** X17.  No step of any coroutine of the bot writes a premium flag: the
    flag of every user stays as it is. *)
Theorem premium_flag_is_never_written m :
  bot_coroutine m -> every_step keeps_premium m.
Proof.
  intros Hm. destruct Hm; steps ltac:(unfold keeps_premium; user_data_step).
Qed.

(** X18.  Only the settings button handler writes a default quality: no
    step of any other coroutine of the bot changes the default quality of
    any user. *)
Theorem only_the_settings_button_sets_the_default m :
  bot_coroutine m ->
  (forall update, m <> handle_settings_callback update) ->
  every_step keeps_default_quality m.
Proof.
  intros Hm Hne.
  destruct Hm; try (exfalso; eapply Hne; reflexivity);
    steps ltac:(unfold keeps_default_quality; user_data_step).
Qed.

Ltac footprint_entries user_id :=
  intros ?u; destruct (decide (u = user_id)) as [->|?Hne];
  [ first [ left; reflexivity
          | right; split; [reflexivity|]; map_lookups ]
  | left; rewrite ?lookup_delete_ne by congruence; reflexivity ].

Ltac footprint_files :=
  intros ?p;
  try match goal with
      | |- context [fs (cleanup ?u ?fr ?s)] =>
          first [ rewrite (proj1 (fs_cleanup_bound u fr s _ _ eq_refl eq_refl))
                | rewrite (fs_cleanup_unbound u fr s) by (cbn; auto) ]
      end;
  cbn [fs set_fs l_input_path l_output_path];
  repeat (rewrite lookup_delete;
          case_decide;
          [ right; split; [first [left; congruence | right; congruence]|reflexivity]
          | ]);
  left; reflexivity.

Ltac footprint_step user_id :=
  idtac; unfold pipeline_footprint;
  split; [store_fields; footprint_entries user_id|];
  split; [footprint_files|];
  store_fields; split; reflexivity.

(** X19.  The footprint of the pipeline: a step of the pipeline of a user
    leaves every registry entry as it is or removes that user's entry, and
    leaves every file as it is or deletes the path bound to its own
    [input_path] or [output_path]; it changes no user data and creates no
    pipeline.  In particular it never modifies an entry, so a [canceled]
    flag is never reset by it. *)
Theorem pipeline_touches_only_its_own update user_id :
  every_step (pipeline_footprint user_id) (process_compression update user_id).
Proof.
  steps ltac:(footprint_step user_id).
Qed.

(** ** Button keys *)

Lemma starts_with_app old s : starts_with old (old +:+ s) = true.
Proof.
  induction old as [|c old IH]; [reflexivity|].
  change (String c old +:+ s) with (String c (old +:+ s)).
  cbn [starts_with]. rewrite Ascii.eqb_refl. exact IH.
Qed.

Lemma remove_all_go_skip old x s :
  remove_all_go old (x +:+ s) (String.length x) = remove_all_go old s O.
Proof.
  induction x as [|c x IH]; [reflexivity|].
  change (String c x +:+ s) with (String c (x +:+ s)).
  cbn [String.length remove_all_go]. exact IH.
Qed.

Lemma remove_all_prefix old s :
  old <> "" -> remove_all old (old +:+ s) = remove_all old s.
Proof.
  intros Hold. destruct old as [|c old]; [congruence|].
  unfold remove_all.
  change (String c old +:+ s) with (String c (old +:+ s)).
  cbn [remove_all_go].
  change (String c (old +:+ s)) with (String c old +:+ s).
  rewrite starts_with_app.
  replace (String.length (String c old) - 1)%nat with (String.length old)
    by (cbn [String.length]; lia).
  apply remove_all_go_skip.
Qed.

Lemma remove_all_absent old s : occurs old s = false -> remove_all old s = s.
Proof.
  unfold remove_all. induction s as [|c s IH]; intros H; [reflexivity|].
  cbn [occurs] in H. apply orb_false_iff in H as [H1 H2].
  cbn [remove_all_go]. rewrite H1, (IH H2). reflexivity.
Qed.

(** X20.  The quality of a registered job is what follows the
    "compress_" prefix of the button's data, when that remainder contains
    no further "compress_". *)
Theorem quality_is_what_follows_the_prefix update s v a mid key :
  query_data update = "compress_" +:+ key ->
  occurs "compress_" key = false ->
  pending_video (user_data_of s (effective_user update)) = Some v ->
  quality <$>
    (active_tasks
       (handled (handle_compression_callback update) [Returned a; Returned mid] s)
     !! effective_user update)
  = Some key.
Proof.
  intros Hdata Hkey Hv.
  destruct (handle_compression_callback_creates update s v a mid Hv) as (-> & _).
  rewrite lookup_insert_eq. cbn [fmap option_fmap option_map new_task quality].
  rewrite Hdata, remove_all_prefix by discriminate.
  rewrite remove_all_absent by exact Hkey. reflexivity.
Qed.

(** X21.  A quality button press leaves the user's entry with the
    [canceled] flag unset: a cancellation requested for the job that was
    running is discarded. *)
Theorem button_press_discards_cancellation update s v a mid :
  pending_video (user_data_of s (effective_user update)) = Some v ->
  cancel_requested
    (handled (handle_compression_callback update) [Returned a; Returned mid] s)
    (effective_user update) = false.
Proof.
  intros Hv.
  destruct (handle_compression_callback_creates update s v a mid Hv) as (H & _).
  unfold cancel_requested. rewrite H, lookup_insert_eq. reflexivity.
Qed.

(** X22.  A run of a job whose [canceled] flag is set from the start, in
    which every call succeeds and nothing else is interleaved: the video
    is still downloaded, then the cancellation is posted; the run makes
    exactly these four calls and ends with the entry removed and the
    downloaded file deleted, without logging anything. *)
Theorem canceled_run update user_id s t a1 a2 n_in a3 :
  active_tasks s !! user_id = Some t ->
  canceled t = true ->
  let v := video_info t in
  let i := path_join TEMP_DOWNLOAD_DIR
             ("input_" +:+ pretty user_id +:+ "_" +:+ pretty (now s) +:+ "_"
              +:+ vi_file_name v) in
  let cfg :=
    exec (invoke (process_compression update user_id) s)
         (alone [Returned a1; Returned a2; Returned n_in; Returned a3]) in
  trace_of cfg
    = [edit_message_text (Downloading (vi_file_size v) (capitalize (quality t)))
         (effective_chat update) (status_message_id t);
       get_file (vi_file_id v);
       download_to_drive (vi_file_id v) i;
       edit_message_text CompressionCanceled (effective_chat update)
         (status_message_id t)] /\
  finished cfg = true /\
  active_tasks (store_of cfg) = delete user_id (active_tasks s) /\
  fs (store_of cfg) !! i = None /\
  log (store_of cfg) = log s.
Proof.
  intros Ht Hc v i cfg. subst cfg v i.
  unfold invoke, process_compression, process_compression_body,
    process_compression_except.
  sequential.
  rewrite cleanup_run_sync. cbn [run_sync trace_of finished store_of].
  split; [reflexivity|]. split; [reflexivity|].
  rewrite active_tasks_cleanup.
  edestruct fs_cleanup_bound as [-> ->]; [reflexivity|reflexivity|].
  cbn [active_tasks fs log set_fs set_active_tasks].
  split; [apply map_eq; intros u; map_lookups|].
  split; [map_lookups|reflexivity].
Qed.

(** ** The further properties on the sample session *)

Ltac by_computation :=
  first [ vm_compute; reflexivity | vm_compute; discriminate | constructor ].

Lemma cancel_command_without_task_witness :
  handled (cancel_command (button_update "")) [ok] empty_store = empty_store.
Proof.
  refine (proj2 (cancel_command_without_task (button_update "") empty_store [ok] _)).
  by_computation.
Defined.

Lemma cancel_command_sets_flag_witness :
  cancel_requested
    (handled (cancel_command (button_update "")) [ok] (job_admitted "compress_low")) 7
  = true.
Proof.
  refine (proj1 (proj2 (proj2 (cancel_command_sets_flag (button_update "")
                                 (job_admitted "compress_low") sample_task [ok] _)))).
  by_computation.
Defined.

Lemma default_quality_round_trip_witness :
  awaiting (invoke (settings_command (button_update ""))
              (handled (handle_settings_callback (button_update "set_default_high"))
                 [Returned 1; Returned 2] empty_store))
  = Some (reply_text 70 (SETTINGS_MESSAGE "High")).
Proof.
  refine (proj1 (default_quality_round_trip (button_update "set_default_high")
                   (button_update "") empty_store 1 2 _)).
  by_computation.
Defined.

Lemma handle_video_without_video_witness :
  handled (handle_video (button_update "")) [ok] empty_store = empty_store.
Proof.
  refine (proj2 (handle_video_without_video (button_update "") empty_store [ok]
                   _ _ _)); by_computation.
Defined.

Lemma handle_video_stores_latest_witness :
  handled (handle_video (video_update (sample_video "b.mp4" 2000)))
    [Raised (TelegramError "timed out")] video_received
  = video_received.
Proof.
  refine (proj1 (handle_video_stores_latest
                   (video_update (sample_video "b.mp4" 2000)) video_received
                   (sample_video "b.mp4" 2000) _ _ _)
            (TelegramError "timed out") []); by_computation.
Defined.

Lemma handle_compression_callback_without_video_witness :
  handled (handle_compression_callback (button_update "compress_low")) [ok; ok]
    empty_store
  = empty_store.
Proof.
  refine (proj1 (handle_compression_callback_without_video
                   (button_update "compress_low") empty_store [ok; ok] _)).
  by_computation.
Defined.

Lemma encoder_never_overwrites_its_input_witness :
  bool_decide (sample_input_path = sample_output_path) = false.
Proof.
  apply bool_decide_eq_false_2.
  refine (encoder_never_overwrites_its_input (button_update "compress_low") 7
            (job_admitted "compress_low") up_to_encode
            sample_input_path sample_output_path 28 "veryfast" _).
  vm_compute. do 4 right. left. reflexivity.
Defined.


Lemma successful_run_witness :
  finished (sample_run "compress_low" (alone all_succeed)) = true.
Proof.
  refine (proj1 (proj2 (successful_run (button_update "compress_low") 7
                          (job_admitted "compress_low") sample_task low_preset
                          1 2 1000 3 400 4 5 6 _ _ _ _))); by_computation.
Defined.

Lemma zero_size_video_witness :
  delivered
    (trace_of
       (exec (invoke (process_compression (button_update "compress_low") 7)
                zero_size_admitted)
          (alone [Returned 1; Returned 2; Returned 0; Returned 3; Returned 400;
                  Returned 4])))
  = false.
Proof.
  refine (proj1 (proj2 (proj2 (zero_size_video_is_encoded_but_not_delivered
                                 (button_update "compress_low") 7 zero_size_admitted
                                 zero_size_task low_preset 1 2 0 3 400 4
                                 _ _ _ _)))); by_computation.
Defined.

Lemma pipeline_without_entry_witness :
  invoke (process_compression (button_update "compress_low") 7) empty_store
  = Finished
      (add_log (ErrorCleaningUp (UnboundLocalError "input_path"))
         (add_log (ErrorDuringCompression (KeyError (pretty 7))) empty_store))
      empty_frame [] (inr tt).
Proof.
  apply pipeline_without_entry. by_computation.
Defined.

Lemma only_a_button_press_admits_witness :
  every_step admits_nothing (cancel_command (button_update "")).
Proof.
  apply only_a_button_press_admits; [constructor|].
  intros update H. discriminate H.
Defined.

Lemma users_are_isolated_witness :
  every_step (leaves_others 7)
    (process_compression (button_update "compress_low") 7).
Proof.
  apply users_are_isolated. constructor.
Defined.

Lemma handlers_leave_files_witness :
  every_step leaves_files
    (handle_compression_callback (button_update "compress_low")).
Proof.
  apply handlers_leave_files. constructor.
Defined.

Lemma premium_flag_is_never_written_witness :
  every_step keeps_premium (handle_video (video_update (sample_video "a.mp4" 1000))).
Proof.
  apply premium_flag_is_never_written. constructor.
Defined.

Lemma only_the_settings_button_sets_the_default_witness :
  every_step keeps_default_quality
    (handle_video (video_update (sample_video "a.mp4" 1000))).
Proof.
  apply only_the_settings_button_sets_the_default; [constructor|].
  intros update H. discriminate H.
Defined.

Lemma quality_is_what_follows_the_prefix_witness :
  quality <$>
    (active_tasks
       (handled (handle_compression_callback (button_update "compress_high"))
          [Returned 1; Returned 11] video_received)
     !! 7)
  = Some "high".
Proof.
  refine (quality_is_what_follows_the_prefix (button_update "compress_high")
            video_received (pending_video_of (sample_video "a.mp4" 1000) 0)
            1 11 "high" _ _ _); by_computation.
Defined.

Lemma button_press_discards_cancellation_witness :
  cancel_requested (cancel_arrives (job_admitted "compress_low")) 7 = true /\
  cancel_requested
    (handled (handle_compression_callback (button_update "compress_high"))
       [Returned 1; Returned 12] (cancel_arrives (job_admitted "compress_low"))) 7
  = false.
Proof.
  split; [by_computation|].
  refine (button_press_discards_cancellation (button_update "compress_high")
            (cancel_arrives (job_admitted "compress_low"))
            (pending_video_of (sample_video "a.mp4" 1000) 0) 1 12 _).
  by_computation.
Defined.

Lemma canceled_run_witness :
  finished
    (exec (invoke (process_compression (button_update "compress_low") 7)
             (cancel_arrives (job_admitted "compress_low")))
       (alone [Returned 1; Returned 2; Returned 1000; Returned 3]))
  = true.
Proof.
  refine (proj1 (proj2 (canceled_run (button_update "compress_low") 7
                          (cancel_arrives (job_admitted "compress_low"))
                          (set_canceled sample_task) 1 2 1000 3 _ _)));
    by_computation.
Defined.
